(** * The Google Chat notifier of [src/main.js]

    A shallow embedding of the GitHub action: the card builder
    [createCard], the envelope [createBody], the sender [sendNotification]
    and the entry point [run], followed by the properties of the
    specification that concern them.

    JavaScript strings are sequences of UTF-16 code units, values are the
    untyped values of the language, and the effects of the action (reading
    the inputs, logging, setting the failure status, the HTTP POST) are
    threaded through a state-and-exception monad over a [World]. *)

From Stdlib Require Import List NArith Bool Arith Lia.
From Stdlib Require Import Ascii String DecimalString.
Import ListNotations.

Set Warnings "-register-all".
Local Open Scope list_scope.

(** ** Strings *)

(** A code unit of a JavaScript string; the engine keeps them below 2^16. *)
Definition char16 := N.

Definition jsstring := list char16.

(** The string whose code units are the characters of an ASCII literal. *)
Definition js (s : string) : jsstring :=
  map N_of_ascii (list_ascii_of_string s).

(** The double quote, which the literals of this file do not hold. *)
Definition dquote : jsstring := [34%N].

Fixpoint str_eqb (s t : jsstring) : bool :=
  match s, t with
  | [], [] => true
  | c :: s', d :: t' => N.eqb c d && str_eqb s' t'
  | _, _ => false
  end.

Definition isAscii (c : char16) : bool := N.ltb c 128.

Definition isAsciiString (s : jsstring) : bool := forallb isAscii s.

Definition asciiLower (c : char16) : char16 :=
  if N.leb 65 c && N.leb c 90 then (c + 32)%N else c.

Definition asciiUpper (c : char16) : char16 :=
  if N.leb 97 c && N.leb c 122 then (c - 32)%N else c.

(** [s.substring(start, end)]: both indices are clamped to the length and
    swapped when [start] is the larger; an absent [end] is the length. *)
Definition substring (s : jsstring) (start : nat) (fin : option nat) : jsstring :=
  let len := List.length s in
  let a := Nat.min start len in
  let b := match fin with Some e => Nat.min e len | None => len end in
  firstn (Nat.max a b - Nat.min a b) (skipn (Nat.min a b) s).

(** White space and line terminators, the code units [String.prototype.trim]
    removes. *)
Definition isWhiteSpace (c : char16) : bool :=
  existsb (N.eqb c)
    [9; 10; 11; 12; 13; 32; 160; 5760; 8232; 8233; 8239; 8287; 12288; 65279]%N
  || (N.leb 8192 c && N.leb c 8202).

Fixpoint trimStart (s : jsstring) : jsstring :=
  match s with
  | c :: s' => if isWhiteSpace c then trimStart s' else s
  | [] => []
  end.

Definition trim (s : jsstring) : jsstring :=
  rev (trimStart (rev (trimStart s))).

(** The decimal numeral of a natural number. *)
Definition decimal (n : N) : jsstring :=
  js (NilZero.string_of_uint (N.to_uint n)).

(** ** Values *)

Inductive value : Type :=
| VUndefined
| VBool (b : bool)
| VNumber (n : N)
| VString (s : jsstring)
| VFunction (name : jsstring)
| VArray (items : list value)
| VObject (fields : list (jsstring * value)).

(** The only numbers of the program are an issue number and an HTTP status,
    both integers that are not negative, hence [N]. *)

Definition truthy (v : value) : bool :=
  match v with
  | VUndefined => false
  | VBool b => b
  | VNumber n => negb (N.eqb n 0)
  | VString s => negb (str_eqb s [])
  | VFunction _ | VArray _ | VObject _ => true
  end.

(** [a || b] *)
Definition or_else (a b : value) : value := if truthy a then a else b.

(** [a === b].  Primitive values are compared by content and the built-in
    functions by name; the identity of objects and arrays is not part of the
    model, the program compares with string constants only. *)
Definition strictEq (a b : value) : bool :=
  match a, b with
  | VUndefined, VUndefined => true
  | VBool x, VBool y => Bool.eqb x y
  | VNumber x, VNumber y => N.eqb x y
  | VString x, VString y => str_eqb x y
  | VFunction x, VFunction y => str_eqb x y
  | _, _ => false
  end.

(** ** The built-ins of the engine *)

(** What the engine's [toLowerCase] and [toUpperCase] give for a string with
    a code unit outside ASCII (the Unicode case tables), the numeral it
    prints for an integer from 2^53 on (the shortest digits that give the
    number back, in exponent form from 1e21), and [JSON.stringify]:
    built-ins whose result no branch of the program inspects. *)
Class Engine : Type := {
  unicodeLower : jsstring -> jsstring;
  unicodeUpper : jsstring -> jsstring;
  largeNumeral : N -> jsstring;
  JSON_stringify : value -> jsstring
}.

(** The integers below 2^53 are numbers of the language one by one, and
    their numeral is the decimal one. *)
Definition isSafeInteger (n : N) : bool := N.ltb n 9007199254740992.

(** The conversion to a string that a template literal applies. *)
Fixpoint toStr {engine : Engine} (v : value) : jsstring :=
  match v with
  | VUndefined => js "undefined"
  | VBool true => js "true"
  | VBool false => js "false"
  | VNumber n => if isSafeInteger n then decimal n else largeNumeral n
  | VString s => s
  | VFunction name => js "function " ++ name ++ js "() { [native code] }"
  | VArray items =>
      (fix join (l : list value) : jsstring :=
         match l with
         | [] => []
         | [x] => match x with VUndefined => [] | _ => toStr x end
         | x :: r => match x with VUndefined => [] | _ => toStr x end
                     ++ js "," ++ join r
         end) items
  | VObject _ => js "[object Object]"
  end.

Fixpoint assoc (k : jsstring) (fields : list (jsstring * value)) : option value :=
  match fields with
  | [] => None
  | (k', v) :: rest => if str_eqb k k' then Some v else assoc k rest
  end.

(** The methods every object inherits from [Object.prototype]. *)
Definition objectPrototypeMethods : list jsstring :=
  map js ["hasOwnProperty"; "isPrototypeOf"; "propertyIsEnumerable";
          "toLocaleString"; "toString"; "valueOf";
          "__defineGetter__"; "__defineSetter__";
          "__lookupGetter__"; "__lookupSetter__"]%string.

(** A property that an object literal does not have itself is looked up in
    [Object.prototype]: [constructor] is the function [Object], [__proto__]
    gives the prototype, an object without enumerable properties. *)
Definition inherited (k : jsstring) : value :=
  if str_eqb k (js "constructor") then VFunction (js "Object")
  else if str_eqb k (js "__proto__") then VObject []
  else if existsb (str_eqb k) objectPrototypeMethods then VFunction k
  else VUndefined.

(** [o[k]] for an object literal [o]. *)
Definition getProp (o : value) (k : jsstring) : value :=
  match o with
  | VObject fields =>
      match assoc k fields with
      | Some v => v
      | None => inherited k
      end
  | _ => VUndefined
  end.

(** The own property [k] of an object, for reading the built card. *)
Definition field (k : string) (v : value) : value :=
  match v with
  | VObject fields =>
      match assoc (js k) fields with Some x => x | None => VUndefined end
  | _ => VUndefined
  end.

(** [a[i]] for an array. *)
Definition item (i : nat) (v : value) : value :=
  match v with
  | VArray items => nth i items VUndefined
  | _ => VUndefined
  end.

Definition items (v : value) : list value :=
  match v with
  | VArray l => l
  | _ => []
  end.

(** [{ k: v }] and a string as a value, for writing object literals. *)
Definition prop (k : string) (v : value) : jsstring * value := (js k, v).

Definition str (s : string) : value := VString (js s).

(** ** The constants of the module (lines 5-15) *)

Definition colors : value :=
  VObject [prop "success" (str "#2cbe4e");
           prop "failure" (str "#ff0000");
           prop "other" (str "#ffc107")].

Definition events : value :=
  VObject [prop "pull_request" (str "pull_request");
           prop "push" (str "push");
           prop "workflow_dispatch" (str "workflow_dispatch")].

(** ** The arguments of the builder *)

(** The object [createCard] destructures.  [eventName] is an environment
    variable, absent ([None]) when it is not set; [number] is the number of
    the issue or pull request of the payload, [undefined] ([None]) for an
    event that has none. *)
Record CardArgs : Type := {
  name : jsstring;
  owner : jsstring;
  repo : jsstring;
  eventName : option jsstring;
  ref : jsstring;
  actor : jsstring;
  workflow : jsstring;
  sha : jsstring;
  number : option N;
  validationId : jsstring;
  validationStatus : jsstring;
  validationUrl : jsstring;
  validationDetails : jsstring
}.

Definition numberValue (n : option N) : value :=
  match n with
  | Some k => VNumber k
  | None => VUndefined
  end.

(** [eventName || ''] *)
Definition orEmpty (s : option jsstring) : jsstring :=
  match s with
  | Some e => e
  | None => []
  end.

Definition assetsUrl : jsstring :=
  js "https://raw.githubusercontent.com/ciro-maciel/google-chat-github-action/main/assets/".

(** ** Object spread *)

(** An integer-like key (a canonical numeral below 2^32 - 1): the properties
    with such keys are enumerated first, in ascending order, the others in
    the order of their creation. *)
Definition indexOfKey (k : jsstring) : option N :=
  match k with
  | [] => None
  | c :: rest =>
      if forallb (fun d => N.leb 48 d && N.leb d 57) k
         && (negb (N.eqb c 48) || str_eqb rest [])
      then
        let n := fold_left (fun acc d => (acc * 10 + (d - 48))%N) k 0%N in
        if N.ltb n 4294967295 then Some n else None
      else None
  end.

(** [o[k] = v] on the list of the properties of [o]. *)
Fixpoint setProp (fields : list (jsstring * value)) (k : jsstring) (v : value)
  : list (jsstring * value) :=
  match fields with
  | [] => [(k, v)]
  | (k', v') :: rest =>
      if str_eqb k k' then (k, v) :: rest
      else
        match indexOfKey k, indexOfKey k' with
        | Some i, Some j =>
            if N.ltb i j then (k, v) :: fields else (k', v') :: setProp rest k v
        | Some _, None => (k, v) :: fields
        | None, _ => (k', v') :: setProp rest k v
        end
  end.

Fixpoint indexed {A : Type} (f : A -> value) (i : N) (l : list A)
  : list (jsstring * value) :=
  match l with
  | [] => []
  | x :: r => (decimal i, f x) :: indexed f (N.succ i) r
  end.

(** The own enumerable properties that [...v] copies. *)
Definition ownEnumerable (v : value) : list (jsstring * value) :=
  match v with
  | VObject fields => fields
  | VArray l => indexed (fun x => x) 0 l
  | VString s => indexed (fun c => VString [c]) 0 s
  | VUndefined | VBool _ | VNumber _ | VFunction _ => []
  end.

(** [{ ...fields, ...v }] *)
Definition spread (fields : list (jsstring * value)) (v : value)
  : list (jsstring * value) :=
  fold_left (fun acc kv => setProp acc (fst kv) (snd kv)) (ownEnumerable v) fields.

(** *** [createBody] (lines 193-195) *)

Definition createBody (name : jsstring) (card : value) : value :=
  VObject [
    prop "text" (VString []);
    prop "cardsV2" (VArray [
      VObject [prop "cardId" (VString name);
               prop "card" (VObject (spread [prop "name" (VString name)] card))]])].

(** ** The world of the action *)

(** The request of a run: the six inputs that [run] reads and hands to
    [sendNotification]. *)
Record NotificationRequest : Type := {
  reqName : jsstring;
  reqUrl : jsstring;
  reqValidationId : jsstring;
  reqValidationStatus : jsstring;
  reqValidationUrl : jsstring;
  reqValidationDetails : jsstring
}.

(** [github.context], as the runner provides it.  The owner and the name of
    the repository are read through the getters [context.repo] and
    [context.issue], which raise when the repository of the run cannot be
    determined (neither GITHUB_REPOSITORY nor a repository in the payload):
    the field [repoKnown] of the world says whether it can. *)
Record GithubContext : Type := {
  ctxOwner : jsstring;            (* context.repo.owner *)
  ctxRepo : jsstring;             (* context.repo.repo *)
  ctxEventName : option jsstring; (* context.eventName *)
  ctxSha : jsstring;
  ctxRef : jsstring;
  ctxActor : jsstring;
  ctxWorkflow : jsstring;
  ctxNumber : option N            (* context.issue.number *)
}.

(** What the network does with a request: an HTTP response with its status
    and data, or no response at all. *)
Inductive netResult : Type :=
| NetResponse (status : N) (data : value)
| NetFailure (message : jsstring).

(** The observable effects of a run, in the order they happen. *)
Inductive effect : Type :=
| Debug (message : jsstring)               (* core.debug *)
| SetFailed (message : jsstring)           (* core.setFailed *)
| Post (url : jsstring) (body : value).    (* axios.post *)

Record World : Type := {
  inputs : jsstring -> jsstring;   (* the value of an input, '' when not supplied *)
  repoKnown : bool;                (* whether context.repo can be determined *)
  context : GithubContext;
  respond : jsstring -> value -> netResult;
  trace : list effect
}.

Definition emit (e : effect) (w : World) : World :=
  {| inputs := inputs w; repoKnown := repoKnown w; context := context w;
     respond := respond w; trace := trace w ++ [e] |}.

Definition isPost (e : effect) : bool :=
  match e with Post _ _ => true | _ => false end.

Definition isSetFailed (e : effect) : bool :=
  match e with SetFailed _ => true | _ => false end.

(** The POST requests made so far. *)
Definition posts (w : World) : list effect := filter isPost (trace w).

(** Whether the run has been marked as failed. *)
Definition failed (w : World) : bool := existsb isSetFailed (trace w).

(** Exceptions: an [Error], or the error of axios with the response it got,
    if any. *)
Inductive exn : Type :=
| Error (message : jsstring)
| AxiosError (message : jsstring) (response : option (N * value)).

(** [`${e}`] *)
Definition exnToStr (e : exn) : jsstring :=
  match e with
  | Error [] => js "Error"
  | Error m => js "Error: " ++ m
  | AxiosError [] _ => js "AxiosError"
  | AxiosError m _ => js "AxiosError: " ++ m
  end.

(** ** A monad for state and exceptions *)

Inductive outcome (A : Type) : Type :=
| Return (a : A)
| Throw (e : exn).

Arguments Return {A} a.
Arguments Throw {A} e.

Definition M (A : Type) : Type := World -> outcome A * World.

Definition ret {A : Type} (a : A) : M A := fun w => (Return a, w).

Definition throw {A : Type} (e : exn) : M A := fun w => (Throw e, w).

Definition bind {A B : Type} (m : M A) (k : A -> M B) : M B :=
  fun w =>
    match m w with
    | (Return a, w') => k a w'
    | (Throw e, w') => (Throw e, w')
    end.

(** [try { m } catch (e) { handler }]: the effects of [m] before the
    exception stay. *)
Definition tryCatch {A : Type} (m : M A) (handler : exn -> M A) : M A :=
  fun w =>
    match m w with
    | (Return a, w') => (Return a, w')
    | (Throw e, w') => handler e w'
    end.

Definition perform (e : effect) : M unit := fun w => (Return tt, emit e w).

(** The error of the getter [context.repo]. *)
Definition repoUnknown : exn :=
  Error (js "context.repo requires a GITHUB_REPOSITORY environment variable like 'owner/repo'").

(** The reads of lines 43-45. *)
Definition getContext : M GithubContext :=
  fun w => if repoKnown w then ret (context w) w else throw repoUnknown w.

Declare Scope action_scope.
Delimit Scope action_scope with action.

Notation "x <- m ;; k" := (bind m (fun x => k))
  (at level 61, m at next level, right associativity) : action_scope.
Notation "m ;; k" := (bind m (fun _ => k))
  (at level 61, right associativity) : action_scope.

Local Open Scope action_scope.

(** *** The actions toolkit and axios *)

(** [core.getInput(name, { required: true })]: an input that is not supplied
    (or is empty) raises, the value is returned trimmed. *)
Definition core_getInput (name : string) (required : bool) : M jsstring :=
  fun w =>
    let val := inputs w (js name) in
    if required && str_eqb val [] then
      throw (Error (js "Input required and not supplied: " ++ js name)) w
    else ret (trim val) w.

Definition core_debug (message : jsstring) : M unit := perform (Debug message).

Definition core_setFailed (message : jsstring) : M unit :=
  perform (SetFailed message).

(** [axios.post(url, body)]: one request; the promise is fulfilled by a
    response with a 2xx status and rejected otherwise. *)
Definition axios_post {engine : Engine} (url : jsstring) (body : value)
  : M (N * value) :=
  fun w =>
    let w' := emit (Post url body) w in
    match respond w url body with
    | NetResponse status data =>
        if N.leb 200 status && N.ltb status 300 then (Return (status, data), w')
        else (Throw (AxiosError
                       (js "Request failed with status code "
                        ++ toStr (VNumber status))
                       (Some (status, data))), w')
    | NetFailure message => (Throw (AxiosError message None), w')
    end.

(** ** Reading a card *)

(** [card.sections[0].widgets] *)
Definition firstSectionWidgets (card : value) : list value :=
  items (field "widgets" (item 0 (field "sections" card))).

(** [w.decoratedText] *)
Definition decoratedText (w : value) : value := field "decoratedText" w.

(** The status widget, the first of the first section, and the event widget,
    the second. *)
Definition statusWidget (card : value) : value :=
  decoratedText (nth 0 (firstSectionWidgets card) VUndefined).

Definition eventWidget (card : value) : value :=
  decoratedText (nth 1 (firstSectionWidgets card) VUndefined).

(** [d.button.onClick.openLink.url] *)
Definition buttonUrl (d : value) : value :=
  field "url" (field "openLink" (field "onClick" (field "button" d))).

(** [d.icon.iconUrl] *)
Definition iconUrl (d : value) : value := field "iconUrl" (field "icon" d).

(** The text of a status widget that shows [label] in [color]. *)
Definition statusMarkup (color label : jsstring) : jsstring :=
  js "<font color=" ++ dquote ++ color ++ dquote ++ js ">" ++ label ++ js "</font>".

(** A widget that is a decorated text with the top label "Name" and the
    text [name]. *)
Definition isNameWidget (name : jsstring) (w : value) : Prop :=
  field "topLabel" (decoratedText w) = str "Name"
  /\ field "text" (decoratedText w) = VString name.

(** The icon of a status type. *)
Definition statusIcon (statusType : string) : value :=
  VString (assetsUrl ++ js "status_" ++ js statusType ++ js ".png").

(** The inputs [run] requires. *)
Definition requiredInputs : list string :=
  ["name"; "url"; "validationId"; "validationStatus"; "validationUrl";
   "validationDetails"]%string.

(** What [run] reports when the input [k] is not supplied. *)
Definition missingInputMessage (k : string) : jsstring :=
  js "error sending notification to google chat: "
  ++ exnToStr (Error (js "Input required and not supplied: " ++ js k)).

(** Whether the response of the network is a success for axios. *)
Definition succeeded (r : netResult) : bool :=
  match r with
  | NetResponse status _ => N.leb 200 status && N.ltb status 300
  | NetFailure _ => false
  end.

Section Notifier.

Context {engine : Engine}.

Definition toLowerCase (s : jsstring) : jsstring :=
  if isAsciiString s then map asciiLower s else unicodeLower s.

Definition toUpperCase (s : jsstring) : jsstring :=
  if isAsciiString s then map asciiUpper s else unicodeUpper s.

(** *** [createCard] (lines 74-191) *)

(** Line 77. *)
Definition statusNameOf (validationStatus : jsstring) : jsstring :=
  toUpperCase (substring validationStatus 0 (Some 1))
  ++ substring validationStatus 1 None.

(** Lines 76 and 78-87: [statusColor] and [statusType]. *)
Definition statusBranch (statusLower : jsstring) : value * jsstring :=
  if str_eqb statusLower (js "success") then
    (getProp colors (js "success"), statusLower)
  else if str_eqb statusLower (js "failure") then
    (getProp colors (js "failure"), statusLower)
  else
    (getProp colors (js "other"), js "cancelled").

(** Line 89. *)
Definition eventTypeOf (eventName : option jsstring) : value :=
  or_else (getProp events (toLowerCase (orEmpty eventName)))
          (getProp events (js "push")).

(** Lines 90-97. *)
Definition eventNameFmtOf (eventType : value) : jsstring :=
  if strictEq eventType (getProp events (js "pull_request")) then
    js "Pull Request"
  else if strictEq eventType (getProp events (js "push")) then
    js "Push"
  else
    js "Workflow Dispatch".

(** Line 99. *)
Definition eventPathOf (eventType : value) (number : option N) (sha : jsstring)
  : jsstring :=
  if strictEq eventType (getProp events (js "pull_request")) then
    js "/pull/" ++ toStr (numberValue number)
  else
    js "/commit/" ++ sha.

(** Line 100. *)
Definition repoUrlOf (owner repo : jsstring) : jsstring :=
  js "https://github.com/" ++ owner ++ js "/" ++ repo.

(** Lines 103-113. *)
Definition nameWidgetsOf (name : jsstring) : list value :=
  let showNameWidget := 45 <=? List.length name in
  if showNameWidget then
    [VObject [prop "decoratedText"
                (VObject [prop "topLabel" (str "Name");
                          prop "text" (VString name);
                          prop "wrapText" (VBool true)])]]
  else [].

Definition openLink (url : jsstring) : value :=
  VObject [prop "openLink" (VObject [prop "url" (VString url)])].

Definition createCard (a : CardArgs) : value :=
  let statusLower := toLowerCase (validationStatus a) in
  let statusName := statusNameOf (validationStatus a) in
  let statusColor := fst (statusBranch statusLower) in
  let statusType := snd (statusBranch statusLower) in
  let eventType := eventTypeOf (eventName a) in
  let eventNameFmt := eventNameFmtOf eventType in
  let eventPath := eventPathOf eventType (number a) (sha a) in
  let repoUrl := repoUrlOf (owner a) (repo a) in
  let eventUrl := repoUrl ++ eventPath in
  let checksUrl := repoUrl ++ eventPath ++ js "/checks" in
  let nameWidgets := nameWidgetsOf (name a) in
  VObject [
    prop "header" (VObject [
      prop "title" (VString (name a));
      prop "subtitle" (VString (owner a ++ js "/" ++ repo a));
      prop "imageUrl"
        (str "https://github.githubassets.com/assets/GitHub-Mark-ea2971cee799.png");
      prop "imageType" (str "CIRCLE")]);
    prop "sections" (VArray [
      VObject [
        prop "widgets" (VArray ([
          VObject [prop "decoratedText" (VObject [
            prop "icon" (VObject [prop "iconUrl"
              (VString (assetsUrl ++ js "status_" ++ statusType ++ js ".png"))]);
            prop "topLabel" (str "Status");
            prop "text" (VString (js "<font color=" ++ dquote ++ toStr statusColor
                                  ++ dquote ++ js ">" ++ statusName ++ js "</font>"));
            prop "button" (VObject [prop "text" (str "Open Job");
                                    prop "onClick" (openLink checksUrl)])])];
          VObject [prop "decoratedText" (VObject [
            prop "icon" (VObject [prop "iconUrl"
              (VString (assetsUrl ++ js "event_" ++ toStr eventType ++ js ".png"))]);
            prop "topLabel" (str "Event");
            prop "text" (VString eventNameFmt);
            prop "button" (VObject [prop "text" (str "Open Event");
                                    prop "onClick" (openLink eventUrl)])])];
          VObject [prop "decoratedText" (VObject [
            prop "icon" (VObject [prop "iconUrl" (VString (assetsUrl ++ js "ref.png"))]);
            prop "topLabel" (str "Ref");
            prop "text" (VString (ref a))])];
          VObject [prop "decoratedText" (VObject [
            prop "icon" (VObject [prop "iconUrl" (VString (assetsUrl ++ js "actor.png"))]);
            prop "topLabel" (str "Actor");
            prop "text" (VString (actor a))])]]
          ++ nameWidgets))];
      VObject [
        prop "header" (str "Code Standardization");
        prop "collapsible" (VBool false);
        prop "widgets" (VArray [
          VObject [prop "textParagraph" (VObject [
            prop "text"
              (VString (js "is coming..." ++ [55358; 57061; 55358; 56595]%N))])]])];
      VObject [
        prop "header" (str "Summary");
        prop "collapsible" (VBool true);
        prop "widgets" (VArray [
          VObject [prop "decoratedText" (VObject [
            prop "icon" (VObject [prop "iconUrl" (VString (assetsUrl ++ js "summary.png"))]);
            prop "topLabel" (str "Name");
            prop "text" (VString (validationId a));
            prop "button" (VObject [prop "text" (str "Open Details");
                                    prop "onClick" (openLink (validationUrl a))])])];
          VObject [prop "textParagraph" (VObject [
            prop "text" (VString (validationDetails a))])]])]])].

(** *** [sendNotification] (lines 42-72) *)

(** Lines 47-61. *)
Definition cardArgs (ctx : GithubContext)
  (name validationId validationStatus validationUrl validationDetails : jsstring)
  : CardArgs :=
  {| name := name;
     owner := ctxOwner ctx;
     repo := ctxRepo ctx;
     eventName := ctxEventName ctx;
     ref := ctxRef ctx;
     actor := ctxActor ctx;
     workflow := ctxWorkflow ctx;
     sha := ctxSha ctx;
     number := ctxNumber ctx;
     validationId := validationId;
     validationStatus := validationStatus;
     validationUrl := validationUrl;
     validationDetails := validationDetails |}.

(** [e.response?.data || ''] *)
Definition responseData (e : exn) : value :=
  match e with
  | AxiosError _ (Some (_, data)) => or_else data (VString [])
  | _ => VString []
  end.

Definition sendNotification
  (name url validationId validationStatus validationUrl validationDetails : jsstring)
  : M bool :=
  ctx <- getContext ;;
  let card := createCard (cardArgs ctx name validationId validationStatus
                                   validationUrl validationDetails) in
  let body := createBody name card in
  tryCatch
    (response <- axios_post url body ;;
     core_debug (js "request success with status: "
                 ++ toStr (VNumber (fst response))) ;;
     ret true)
    (fun e =>
       core_debug (js "request failed with error, body: " ++ JSON_stringify body
                   ++ js ", response:" ++ JSON_stringify (responseData e)) ;;
       ret false).

(** The card that [sendNotification] builds for a request in a context
    (lines 43-61), and the call of line 31. *)
Definition buildCard (r : NotificationRequest) (ctx : GithubContext) : value :=
  createCard (cardArgs ctx (reqName r) (reqValidationId r) (reqValidationStatus r)
                       (reqValidationUrl r) (reqValidationDetails r)).

Definition sendRequest (r : NotificationRequest) : M bool :=
  sendNotification (reqName r) (reqUrl r) (reqValidationId r)
                   (reqValidationStatus r) (reqValidationUrl r)
                   (reqValidationDetails r).

(** *** [run] (lines 21-40) *)

Definition run : M unit :=
  tryCatch
    (name <- core_getInput "name" true ;;
     url <- core_getInput "url" true ;;
     validationId <- core_getInput "validationId" true ;;
     validationStatus <- core_getInput "validationStatus" true ;;
     validationUrl <- core_getInput "validationUrl" true ;;
     validationDetails <- core_getInput "validationDetails" true ;;
     ok <- sendNotification name url validationId validationStatus
                            validationUrl validationDetails ;;
     if negb ok then
       core_setFailed (js "error sending notification to google chat")
     else
       core_debug (js "Sent notification: " ++ name))
    (fun e =>
       core_setFailed (js "error sending notification to google chat: "
                       ++ exnToStr e)).

End Notifier.

(** ** Inputs for the examples *)

(** An engine for runs on ASCII inputs and small numbers, which do not
    consult its tables. *)
Definition asciiEngine : Engine :=
  {| unicodeLower := fun s => s;
     unicodeUpper := fun s => s;
     largeNumeral := decimal;
     JSON_stringify := fun _ => [] |}.

Definition exampleArgs (eventName : option string) (validationStatus name : string)
  : CardArgs :=
  {| name := js name;
     owner := js "octo";
     repo := js "demo";
     eventName := option_map js eventName;
     ref := js "refs/heads/main";
     actor := js "mona";
     workflow := js "ci";
     sha := js "abc123";
     number := Some 42%N;
     validationId := js "lint";
     validationStatus := js validationStatus;
     validationUrl := js "https://example.com/lint";
     validationDetails := js "2 warnings" |}.

Definition exampleContext : GithubContext :=
  {| ctxOwner := js "octo";
     ctxRepo := js "demo";
     ctxEventName := Some (js "push");
     ctxSha := js "abc123";
     ctxRef := js "refs/heads/main";
     ctxActor := js "mona";
     ctxWorkflow := js "ci";
     ctxNumber := None |}.

(** A run in which the input [validationUrl] is not supplied. *)
Definition exampleWorld : World :=
  {| inputs := fun k => if str_eqb k (js "validationUrl") then [] else js "x";
     repoKnown := true;
     context := exampleContext;
     respond := fun _ _ => NetResponse 200 (VString []);
     trace := [] |}.

(** A request. *)
Definition exampleRequest : NotificationRequest :=
  {| reqName := js "build";
     reqUrl := js "https://chat.example.com/hook";
     reqValidationId := js "lint";
     reqValidationStatus := js "success";
     reqValidationUrl := js "https://example.com/lint";
     reqValidationDetails := js "2 warnings" |}.

(** A name of 44 code units and one of 45. *)
Definition name44 : string := "12345678901234567890123456789012345678901234".

Definition name45 : string := "123456789012345678901234567890123456789012345".

(** The card for an event, a status and a name, the status text and the
    event widget of that card, and a lower-cased literal. *)
Definition exampleCard (event : option string) (status name : string) : value :=
  createCard (engine := asciiEngine) (exampleArgs event status name).

Definition exampleStatusText (status : string) : value :=
  field "text" (statusWidget (exampleCard (Some "push"%string) status "build")).

Definition exampleEvent (event : option string) : value :=
  eventWidget (exampleCard event "success" "build").

Definition exampleLower (s : string) : jsstring :=
  toLowerCase (engine := asciiEngine) (js s).

Definition exampleRun : outcome unit * World :=
  run (engine := asciiEngine) exampleWorld.

(** ** More readers, updates and worlds *)

(** The icon of an event type. *)
Definition eventIcon (kind : string) : value :=
  VString (assetsUrl ++ js "event_" ++ js kind ++ js ".png").

(** Whether [k] names a property that an object literal inherits. *)
Definition inheritedName (k : jsstring) : bool :=
  str_eqb k (js "constructor") || str_eqb k (js "__proto__")
  || existsb (str_eqb k) objectPrototypeMethods.

(** Whether the six required inputs are supplied, and the first of them, in
    the order [run] reads them, that is not. *)
Definition allSupplied (w : World) : bool :=
  forallb (fun k => negb (str_eqb (inputs w (js k)) [])) requiredInputs.

Definition firstMissing (w : World) : option string :=
  find (fun k => str_eqb (inputs w (js k)) []) requiredInputs.

(** The request that [run] reads from the inputs of a world. *)
Definition requestOf (w : World) : NotificationRequest :=
  {| reqName := trim (inputs w (js "name"));
     reqUrl := trim (inputs w (js "url"));
     reqValidationId := trim (inputs w (js "validationId"));
     reqValidationStatus := trim (inputs w (js "validationStatus"));
     reqValidationUrl := trim (inputs w (js "validationUrl"));
     reqValidationDetails := trim (inputs w (js "validationDetails")) |}.

(** The arguments of the builder with another status, event or workflow. *)
Definition withStatus (a : CardArgs) (status : jsstring) : CardArgs :=
  {| name := name a; owner := owner a; repo := repo a; eventName := eventName a;
     ref := ref a; actor := actor a; workflow := workflow a; sha := sha a;
     number := number a; validationId := validationId a;
     validationStatus := status; validationUrl := validationUrl a;
     validationDetails := validationDetails a |}.

Definition withEventName (a : CardArgs) (event : option jsstring) : CardArgs :=
  {| name := name a; owner := owner a; repo := repo a; eventName := event;
     ref := ref a; actor := actor a; workflow := workflow a; sha := sha a;
     number := number a; validationId := validationId a;
     validationStatus := validationStatus a; validationUrl := validationUrl a;
     validationDetails := validationDetails a |}.

Definition withWorkflow (a : CardArgs) (wf : jsstring) : CardArgs :=
  {| name := name a; owner := owner a; repo := repo a; eventName := eventName a;
     ref := ref a; actor := actor a; workflow := wf; sha := sha a;
     number := number a; validationId := validationId a;
     validationStatus := validationStatus a; validationUrl := validationUrl a;
     validationDetails := validationDetails a |}.

(** [card.header.title], the text of the widget [i] of the first section,
    and the two widgets of the third section, the summary. *)
Definition headerTitle (card : value) : value :=
  field "title" (field "header" card).

Definition widgetText (i : nat) (card : value) : value :=
  field "text" (decoratedText (nth i (firstSectionWidgets card) VUndefined)).

Definition summaryWidget (i : nat) (card : value) : value :=
  item i (field "widgets" (item 2 (field "sections" card))).

(** [body.cardsV2[0].card], and the properties of an object. *)
Definition envelopedCard (body : value) : value :=
  field "card" (item 0 (field "cardsV2" body)).

Definition fieldsOf (v : value) : list (jsstring * value) :=
  match v with
  | VObject fields => fields
  | _ => []
  end.

Section Diagnostics.

Context {engine : Engine}.

(** The line of debug output that [sendNotification] writes for an answer of
    the network (lines 66 and 69). *)
Definition debugLine (body : value) (r : netResult) : jsstring :=
  let failure data :=
    js "request failed with error, body: " ++ JSON_stringify body
    ++ js ", response:" ++ JSON_stringify data in
  match r with
  | NetResponse status data =>
      if N.leb 200 status && N.ltb status 300
      then js "request success with status: " ++ decimal status
      else failure (if truthy data then data else VString [])
  | NetFailure _ => failure (VString [])
  end.

(** The body that [run] posts in a world. *)
Definition requestBody (w : World) : value :=
  createBody (reqName (requestOf w)) (buildCard (requestOf w) (context w)).

End Diagnostics.

(** Worlds in which every input is supplied, with spaces around: the network
    accepts the request in the first and answers with the status 500 in the
    second.  In the third the inputs [url] and [validationDetails] are
    missing. *)
Definition completeWorld : World :=
  {| inputs := fun k => js " " ++ k ++ js " ";
     repoKnown := true;
     context := exampleContext;
     respond := fun _ _ => NetResponse 200 (VString []);
     trace := [] |}.

Definition rejectedWorld : World :=
  {| inputs := fun k => js " " ++ k ++ js " ";
     repoKnown := true;
     context := exampleContext;
     respond := fun _ _ => NetResponse 500 (VString (js "oops"));
     trace := [] |}.

Definition unreachableWorld : World :=
  {| inputs := fun k => js " " ++ k ++ js " ";
     repoKnown := true;
     context := exampleContext;
     respond := fun _ _ => NetFailure (js "ECONNREFUSED");
     trace := [] |}.

(** A world in which every input is supplied and the repository of the run
    is not known. *)
Definition detachedWorld : World :=
  {| inputs := fun k => js " " ++ k ++ js " ";
     repoKnown := false;
     context := exampleContext;
     respond := fun _ _ => NetResponse 200 (VString []);
     trace := [] |}.

Definition twoMissingWorld : World :=
  {| inputs := fun k =>
       if str_eqb k (js "url") || str_eqb k (js "validationDetails")
       then [] else js "x";
     repoKnown := true;
     context := exampleContext;
     respond := fun _ _ => NetResponse 200 (VString []);
     trace := [] |}.

(** A pull request whose payload has no number, and an object that has a
    name of its own. *)
Definition pullRequestWithoutNumber : CardArgs :=
  {| name := js "build"; owner := js "octo"; repo := js "demo";
     eventName := Some (js "Pull_Request"); ref := js "refs/pull/7/merge";
     actor := js "mona"; workflow := js "ci"; sha := js "abc123";
     number := None; validationId := js "lint";
     validationStatus := js "success";
     validationUrl := js "https://example.com/lint";
     validationDetails := js "2 warnings" |}.

Definition namedObject : list (jsstring * value) :=
  [prop "header" (str "h"); prop "name" (str "own")].

(** ** Properties *)

Section Properties.

Context {engine : Engine}.

Lemma str_eqb_eq (s t : jsstring) : str_eqb s t = true <-> s = t.
Proof.
  revert t; induction s as [|c s IH]; intros [|d t]; simpl; split;
    try congruence; try discriminate.
  - intros H. apply andb_prop in H. destruct H as [Hc Hs].
    apply N.eqb_eq in Hc. apply IH in Hs. congruence.
  - intros H. injection H as -> ->. rewrite N.eqb_refl. simpl.
    now apply IH.
Qed.

Lemma str_eqb_neq (s t : jsstring) : str_eqb s t = false <-> s <> t.
Proof.
  split.
  - intros H E. apply str_eqb_eq in E. congruence.
  - intros H. destruct (str_eqb s t) eqn:E; [|reflexivity].
    apply str_eqb_eq in E. contradiction.
Qed.

Lemma substring_first (s : jsstring) : substring s 0 (Some 1) = firstn 1 s.
Proof. destruct s as [|c [|d s]]; reflexivity. Qed.

Lemma substring_rest (s : jsstring) : substring s 1 None = skipn 1 s.
Proof.
  destruct s as [|c s]; [reflexivity|].
  unfold substring.
  replace (Nat.min 1 (List.length (c :: s))) with 1 by (simpl; lia).
  replace (Nat.max 1 (List.length (c :: s))) with (List.length (c :: s))
    by (simpl; lia).
  replace (Nat.min 1 (List.length (c :: s))) with 1 by (simpl; lia).
  simpl. rewrite Nat.sub_0_r. apply firstn_all.
Qed.

(** The label of the status widget: the first code unit upper-cased, the
    rest as it is. *)
Lemma statusNameOf_eq (s : jsstring) :
  statusNameOf s = toUpperCase (firstn 1 s) ++ skipn 1 s.
Proof.
  unfold statusNameOf. now rewrite substring_first, substring_rest.
Qed.

(** The first section of a card: four widgets, then the name widgets. *)
Lemma firstSectionWidgets_createCard (a : CardArgs) :
  exists w1 w2 w3 w4,
    firstSectionWidgets (createCard a)
    = [w1; w2; w3; w4] ++ nameWidgetsOf (name a)
    /\ field "topLabel" (decoratedText w1) = str "Status"
    /\ field "topLabel" (decoratedText w2) = str "Event"
    /\ field "topLabel" (decoratedText w3) = str "Ref"
    /\ field "topLabel" (decoratedText w4) = str "Actor".
Proof.
  do 4 eexists. split; [reflexivity|]. repeat split.
Qed.

Lemma statusWidget_text (a : CardArgs) :
  field "text" (statusWidget (createCard a))
  = VString (statusMarkup
               (toStr (fst (statusBranch (toLowerCase (validationStatus a)))))
               (statusNameOf (validationStatus a))).
Proof. reflexivity. Qed.

Lemma statusWidget_icon (a : CardArgs) :
  iconUrl (statusWidget (createCard a))
  = VString (assetsUrl ++ js "status_"
             ++ snd (statusBranch (toLowerCase (validationStatus a)))
             ++ js ".png").
Proof. reflexivity. Qed.

Lemma statusBranch_success (l : jsstring) :
  l = js "success" -> statusBranch l = (str "#2cbe4e", js "success").
Proof. intros ->. reflexivity. Qed.

Lemma statusBranch_failure (l : jsstring) :
  l = js "failure" -> statusBranch l = (str "#ff0000", js "failure").
Proof. intros ->. reflexivity. Qed.

Lemma statusBranch_other (l : jsstring) :
  l <> js "success" -> l <> js "failure" ->
  statusBranch l = (str "#ffc107", js "cancelled").
Proof.
  intros Hs Hf. unfold statusBranch.
  apply str_eqb_neq in Hs. apply str_eqb_neq in Hf.
  now rewrite Hs, Hf.
Qed.

(** C1, as amended: a status whose lower-cased value is neither "success"
    nor "failure" gets the amber colour and the icon of a cancelled run,
    and its label is the input with its first code unit upper-cased, not
    the word "Cancelled". *)
Theorem status_other_amber_label_kept (a : CardArgs) :
  toLowerCase (validationStatus a) <> js "success" ->
  toLowerCase (validationStatus a) <> js "failure" ->
  field "text" (statusWidget (createCard a))
  = VString (statusMarkup (js "#ffc107")
               (toUpperCase (firstn 1 (validationStatus a))
                ++ skipn 1 (validationStatus a)))
  /\ iconUrl (statusWidget (createCard a)) = statusIcon "cancelled".
Proof.
  intros Hs Hf. split.
  - rewrite statusWidget_text, (statusBranch_other _ Hs Hf), statusNameOf_eq.
    reflexivity.
  - rewrite statusWidget_icon, (statusBranch_other _ Hs Hf). reflexivity.
Qed.

(** C3: a status whose lower-cased value is "success" is shown in green,
    one whose lower-cased value is "failure" in red, and the label is the
    input with only its first code unit upper-cased: "Success" for
    "success" and "Failure" for "failure". *)
Theorem status_success_failure_colour_label (a : CardArgs) (colour : string) :
  (toLowerCase (validationStatus a) = js "success" /\ colour = "#2cbe4e"%string)
  \/ (toLowerCase (validationStatus a) = js "failure" /\ colour = "#ff0000"%string) ->
  field "text" (statusWidget (createCard a))
  = VString (statusMarkup (js colour)
               (toUpperCase (firstn 1 (validationStatus a))
                ++ skipn 1 (validationStatus a)))
  /\ toUpperCase (firstn 1 (js "success")) ++ skipn 1 (js "success") = js "Success"
  /\ toUpperCase (firstn 1 (js "failure")) ++ skipn 1 (js "failure") = js "Failure".
Proof.
  intros [[H ->]|[H ->]]; rewrite statusWidget_text, statusNameOf_eq.
  - rewrite (statusBranch_success _ H). repeat split.
  - rewrite (statusBranch_failure _ H). repeat split.
Qed.

(** C10: the icon of the status widget is one of three fixed addresses:
    that of "success" or "failure" when the lower-cased status is that
    word, that of "cancelled" for every other status. *)
Theorem status_icon_one_of_three (a : CardArgs) :
  let l := toLowerCase (validationStatus a) in
  iconUrl (statusWidget (createCard a))
  = (if str_eqb l (js "success") then statusIcon "success"
     else if str_eqb l (js "failure") then statusIcon "failure"
     else statusIcon "cancelled")
  /\ In (iconUrl (statusWidget (createCard a)))
        [statusIcon "success"; statusIcon "failure"; statusIcon "cancelled"].
Proof.
  intros l. rewrite statusWidget_icon. fold l.
  destruct (str_eqb l (js "success")) eqn:Es.
  - apply str_eqb_eq in Es. rewrite (statusBranch_success _ Es).
    split; [reflexivity | left; reflexivity].
  - apply str_eqb_neq in Es. destruct (str_eqb l (js "failure")) eqn:Ef.
    + apply str_eqb_eq in Ef. rewrite (statusBranch_failure _ Ef).
      split; [reflexivity | right; left; reflexivity].
    + apply str_eqb_neq in Ef. rewrite (statusBranch_other _ Es Ef).
      split; [reflexivity | right; right; left; reflexivity].
Qed.

(** *** The event *)

Lemma events_lookup (l : jsstring) :
  getProp events l
  = if str_eqb l (js "pull_request") then str "pull_request"
    else if str_eqb l (js "push") then str "push"
    else if str_eqb l (js "workflow_dispatch") then str "workflow_dispatch"
    else inherited l.
Proof.
  unfold getProp, events, prop. cbn [assoc].
  repeat (destruct (str_eqb l _); [reflexivity|]). reflexivity.
Qed.

Lemma inherited_not_string (l s : jsstring) : inherited l <> VString s.
Proof.
  unfold inherited.
  destruct (str_eqb l (js "constructor")); [discriminate|].
  destruct (str_eqb l (js "__proto__")); [discriminate|].
  destruct (existsb (str_eqb l) objectPrototypeMethods); discriminate.
Qed.

Lemma inherited_truthy (l : jsstring) :
  inherited l = VUndefined \/ truthy (inherited l) = true.
Proof.
  unfold inherited.
  destruct (str_eqb l (js "constructor")); [now right|].
  destruct (str_eqb l (js "__proto__")); [now right|].
  destruct (existsb (str_eqb l) objectPrototypeMethods); [now right | now left].
Qed.

(** [eventType === events.pull_request] holds exactly when the lower-cased
    event name is "pull_request". *)
Lemma eventType_is_pull_request (e : option jsstring) :
  strictEq (eventTypeOf e) (getProp events (js "pull_request"))
  = str_eqb (toLowerCase (orEmpty e)) (js "pull_request").
Proof.
  unfold eventTypeOf. rewrite events_lookup.
  destruct (str_eqb (toLowerCase (orEmpty e)) (js "pull_request")); [reflexivity|].
  destruct (str_eqb (toLowerCase (orEmpty e)) (js "push")); [reflexivity|].
  destruct (str_eqb (toLowerCase (orEmpty e)) (js "workflow_dispatch"));
    [reflexivity|].
  destruct (inherited_truthy (toLowerCase (orEmpty e))) as [H|H].
  - rewrite H. reflexivity.
  - unfold or_else. rewrite H.
    pose proof (inherited_not_string (toLowerCase (orEmpty e))) as Hn.
    destruct (inherited (toLowerCase (orEmpty e))); try reflexivity.
    exfalso. now apply (Hn s).
Qed.

(** An event name that is neither a key of [events] nor a property the
    table inherits gives the event type "push". *)
Lemma eventTypeOf_fallback (e : option jsstring) :
  toLowerCase (orEmpty e) <> js "pull_request" ->
  toLowerCase (orEmpty e) <> js "push" ->
  toLowerCase (orEmpty e) <> js "workflow_dispatch" ->
  inherited (toLowerCase (orEmpty e)) = VUndefined ->
  eventTypeOf e = str "push".
Proof.
  intros Hpr Hpu Hwd Hin. unfold eventTypeOf. rewrite events_lookup.
  apply str_eqb_neq in Hpr, Hpu, Hwd. rewrite Hpr, Hpu, Hwd, Hin.
  reflexivity.
Qed.

Lemma eventWidget_text (a : CardArgs) :
  field "text" (eventWidget (createCard a))
  = VString (eventNameFmtOf (eventTypeOf (eventName a))).
Proof. reflexivity. Qed.

Lemma eventWidget_url (a : CardArgs) :
  buttonUrl (eventWidget (createCard a))
  = VString (repoUrlOf (owner a) (repo a)
             ++ eventPathOf (eventTypeOf (eventName a)) (number a) (sha a)).
Proof. reflexivity. Qed.

Lemma statusWidget_url (a : CardArgs) :
  buttonUrl (statusWidget (createCard a))
  = VString (repoUrlOf (owner a) (repo a)
             ++ eventPathOf (eventTypeOf (eventName a)) (number a) (sha a)
             ++ js "/checks").
Proof. reflexivity. Qed.

(** C2, as amended: an event name that is not recognised (and is not the
    name of a property that the table of events inherits from
    [Object.prototype]) gets the link of a push, [/commit/{sha}], and the
    label "Push". *)
Theorem unrecognized_event_is_push (a : CardArgs) :
  let l := toLowerCase (orEmpty (eventName a)) in
  l <> js "pull_request" -> l <> js "push" -> l <> js "workflow_dispatch" ->
  inherited l = VUndefined ->
  buttonUrl (eventWidget (createCard a))
  = VString (js "https://github.com/" ++ owner a ++ js "/" ++ repo a
             ++ js "/commit/" ++ sha a)
  /\ field "text" (eventWidget (createCard a)) = str "Push".
Proof.
  intros l Hpr Hpu Hwd Hin.
  rewrite eventWidget_url, eventWidget_text.
  rewrite (eventTypeOf_fallback _ Hpr Hpu Hwd Hin).
  split; [|reflexivity].
  unfold repoUrlOf. rewrite <- !app_assoc. reflexivity.
Qed.

(** C8: the address of the repository is
    [https://github.com/{owner}/{repo}]; the link of the event is that
    address followed by [/pull/{number}] when the event type is
    "pull_request" and by [/commit/{sha}] otherwise; the link of the
    checks is the link of the event followed by [/checks].  The number is
    written as the template literal converts it: in decimal digits when it
    is an integer below 2^53. *)
Theorem event_and_checks_urls (a : CardArgs) :
  let repoUrl := js "https://github.com/" ++ owner a ++ js "/" ++ repo a in
  let eventUrl :=
    repoUrl ++ (if str_eqb (toLowerCase (orEmpty (eventName a))) (js "pull_request")
                then js "/pull/" ++ toStr (numberValue (number a))
                else js "/commit/" ++ sha a) in
  buttonUrl (eventWidget (createCard a)) = VString eventUrl
  /\ buttonUrl (statusWidget (createCard a)) = VString (eventUrl ++ js "/checks")
  /\ strictEq (eventTypeOf (eventName a)) (str "pull_request")
     = str_eqb (toLowerCase (orEmpty (eventName a))) (js "pull_request")
  /\ forall n : N,
       isSafeInteger n = true -> toStr (numberValue (Some n)) = decimal n.
Proof.
  cbv zeta. rewrite eventWidget_url, statusWidget_url.
  unfold eventPathOf, repoUrlOf.
  rewrite eventType_is_pull_request.
  repeat split.
  - now rewrite app_assoc.
  - apply eventType_is_pull_request.
  - intros n Hn. cbn [numberValue toStr]. now rewrite Hn.
Qed.

(** *** The name widget *)

(** C4: the first section has a widget with the top label "Name" and the
    name as its text exactly when the name has 45 code units or more; for
    a shorter name no widget of the section has that top label. *)
Theorem name_widget_iff_long_name (a : CardArgs) :
  let ws := firstSectionWidgets (createCard a) in
  ((exists w, In w ws /\ isNameWidget (name a) w) <-> 45 <= List.length (name a))
  /\ (List.length (name a) <= 44 ->
      forall w, In w ws -> field "topLabel" (decoratedText w) <> str "Name").
Proof.
  destruct (firstSectionWidgets_createCard a)
    as (w1 & w2 & w3 & w4 & E & L1 & L2 & L3 & L4).
  cbv zeta. rewrite E. unfold nameWidgetsOf.
  destruct (Nat.leb_spec 45 (List.length (name a))) as [Hlong|Hshort].
  - split; [|lia]. split; [intros _; exact Hlong|]. intros _.
    eexists. split.
    + apply in_or_app. right. left. reflexivity.
    + split; reflexivity.
  - assert (Hnone : forall w, In w ([w1; w2; w3; w4] ++ []) ->
              field "topLabel" (decoratedText w) <> str "Name").
    { intros w Hin Hlabel. rewrite app_nil_r in Hin.
      destruct Hin as [<-|[<-|[<-|[<-|[]]]]];
        [rewrite L1 in Hlabel | rewrite L2 in Hlabel
        | rewrite L3 in Hlabel | rewrite L4 in Hlabel];
        cbv in Hlabel; discriminate. }
    split.
    + split; [|lia]. intros (w & Hin & Hlabel & _).
      exfalso. exact (Hnone w Hin Hlabel).
    + intros _. exact Hnone.
Qed.

(** *** The envelope *)

(** C5: the body of the request for a built card is
    [{ text: '', cardsV2: [{ cardId: name, card: { name, header, sections } }] }],
    with the header and the sections of the card. *)
Theorem createBody_envelope (n : jsstring) (a : CardArgs) :
  exists header sections,
    createCard a = VObject [prop "header" header; prop "sections" sections]
    /\ createBody n (createCard a)
       = VObject [
           prop "text" (VString []);
           prop "cardsV2" (VArray [
             VObject [prop "cardId" (VString n);
                      prop "card" (VObject [prop "name" (VString n);
                                            prop "header" header;
                                            prop "sections" sections])]])].
Proof. do 2 eexists. split; reflexivity. Qed.

(** *** Determinism *)

(** *** The sender *)

Lemma posts_emit (e : effect) (w : World) :
  posts (emit e w) = posts w ++ (if isPost e then [e] else []).
Proof. unfold posts, emit. simpl. now rewrite filter_app. Qed.

Lemma failed_emit (e : effect) (w : World) :
  failed (emit e w) = failed w || isSetFailed e.
Proof.
  unfold failed, emit. simpl. rewrite existsb_app. simpl.
  now rewrite orb_false_r.
Qed.

(** A call of the sender in a world where the context can be read: the
    POST, then one line of debug output. *)
Lemma sendNotification_eq (n url vid vstatus vurl vdetails : jsstring)
  (w : World) :
  let body := createBody n (createCard (cardArgs (context w) n vid vstatus
                                                 vurl vdetails)) in
  repoKnown w = true ->
  exists message,
    sendNotification n url vid vstatus vurl vdetails w
    = (Return (succeeded (respond w url body)),
       emit (Debug message) (emit (Post url body) w)).
Proof.
  cbv zeta. intros Hk.
  unfold sendNotification, bind, getContext, tryCatch, axios_post.
  rewrite Hk. cbn [ret].
  destruct (respond w url _) as [status data|message]; simpl succeeded.
  - destruct (N.leb 200 status && N.ltb status 300);
      eexists; reflexivity.
  - eexists; reflexivity.
Qed.

(** A call of the sender in a world where the repository is not known: the
    error of the getter, and no effect. *)
Lemma sendNotification_unknown_repo (n url vid vstatus vurl vdetails : jsstring)
  (w : World) :
  repoKnown w = false ->
  sendNotification n url vid vstatus vurl vdetails w = (Throw repoUnknown, w).
Proof.
  intros Hk. unfold sendNotification, bind, getContext. now rewrite Hk.
Qed.

(** C6, as amended: when the context of the run can be read, the sender
    returns, with [true] when the response has a 2xx status (200, say) and
    with [false] when the status is another one (500, say) or there is no
    response; it does not raise, and it adds one POST, of the body of the
    card to the given address, to those made before.  When the repository of
    the run cannot be determined, the error of reading the context (lines
    43-45, before the [try]) escapes from the sender and no POST is made. *)
Theorem sendNotification_one_post (n url vid vstatus vurl vdetails : jsstring)
  (w : World) :
  let body := createBody n (createCard (cardArgs (context w) n vid vstatus
                                                 vurl vdetails)) in
  let r := sendNotification n url vid vstatus vurl vdetails w in
  fst r = (if repoKnown w then Return (succeeded (respond w url body))
           else Throw repoUnknown)
  /\ posts (snd r) = posts w ++ (if repoKnown w then [Post url body] else [])
  /\ failed (snd r) = failed w
  /\ (forall data, succeeded (NetResponse 200 data) = true)
  /\ (forall data, succeeded (NetResponse 500 data) = false)
  /\ (forall message, succeeded (NetFailure message) = false).
Proof.
  cbv zeta. destruct (repoKnown w) eqn:Hk.
  - destruct (sendNotification_eq n url vid vstatus vurl vdetails w Hk) as [m E].
    rewrite E. cbn [fst snd]. rewrite !posts_emit, !failed_emit.
    cbn [isPost isSetFailed]. rewrite app_nil_r, !orb_false_r.
    repeat split.
  - rewrite (sendNotification_unknown_repo n url vid vstatus vurl vdetails w Hk).
    cbn [fst snd]. rewrite app_nil_r. repeat split.
Qed.

(** *** The entry point *)

Lemma core_getInput_required (k : string) (w : World) :
  core_getInput k true w
  = if str_eqb (inputs w (js k)) []
    then (Throw (Error (js "Input required and not supplied: " ++ js k)), w)
    else (Return (trim (inputs w (js k))), w).
Proof. reflexivity. Qed.

(** One read of a required input in [run]: either [k] is the first
    missing input, or the run goes on with its value. *)
Ltac read_input k E :=
  rewrite (core_getInput_required k);
  destruct (str_eqb (inputs _ (js k)) []) eqn:E;
  [ apply str_eqb_eq in E; exists k;
    split; [simpl; tauto | split; [exact E | reflexivity]]
  | cbv beta iota ].

(** When a required input is missing, [run] is [core.setFailed] with the
    message for the first missing one. *)
Lemma run_missing_input (w : World) :
  (exists k, In k requiredInputs /\ inputs w (js k) = []) ->
  exists k, In k requiredInputs /\ inputs w (js k) = []
            /\ run w = (Return tt, emit (SetFailed (missingInputMessage k)) w).
Proof.
  intros (k0 & Hin & Hk0).
  unfold run, tryCatch, bind.
  read_input "name"%string E1.
  read_input "url"%string E2.
  read_input "validationId"%string E3.
  read_input "validationStatus"%string E4.
  read_input "validationUrl"%string E5.
  read_input "validationDetails"%string E6.
  exfalso.
  apply str_eqb_neq in E1, E2, E3, E4, E5, E6.
  destruct Hin as [<-|[<-|[<-|[<-|[<-|[<-|[]]]]]]]; contradiction.
Qed.

(** C7: when one of the six required inputs is missing, [run] returns
    without raising, having done nothing but mark the run as failed with
    the message that names a missing input: no POST is made. *)
Theorem missing_input_fails_without_post (w : World) :
  (exists k, In k requiredInputs /\ inputs w (js k) = []) ->
  (exists k, In k requiredInputs /\ inputs w (js k) = []
             /\ trace (snd (run w)) = trace w ++ [SetFailed (missingInputMessage k)])
  /\ fst (run w) = Return tt
  /\ posts (snd (run w)) = posts w
  /\ failed (snd (run w)) = true.
Proof.
  intros H. destruct (run_missing_input w H) as (k & Hin & Hk & E).
  rewrite E. cbn [fst snd]. rewrite posts_emit, failed_emit.
  cbn [isPost isSetFailed]. rewrite app_nil_r, orb_true_r.
  repeat split; trivial. exists k. repeat split; trivial.
Qed.

(** ** Further properties of the sender *)

Lemma trace_emit (e : effect) (w : World) : trace (emit e w) = trace w ++ [e].
Proof. reflexivity. Qed.

(** A call of the sender in a world where the context can be read, with the
    line it logs. *)
Lemma sendNotification_trace (n url vid vstatus vurl vdetails : jsstring)
  (w : World) :
  let body := createBody n (createCard (cardArgs (context w) n vid vstatus
                                                 vurl vdetails)) in
  repoKnown w = true ->
  sendNotification n url vid vstatus vurl vdetails w
  = (Return (succeeded (respond w url body)),
     emit (Debug (debugLine body (respond w url body))) (emit (Post url body) w)).
Proof.
  cbv zeta. intros Hk.
  unfold sendNotification, bind, getContext, tryCatch, axios_post.
  rewrite Hk. cbn [ret]. unfold debugLine.
  destruct (respond w url _) as [status data|message]; simpl succeeded.
  - destruct (N.leb 200 status && N.ltb status 300) eqn:E; [|reflexivity].
    assert (Hs : isSafeInteger status = true).
    { apply andb_prop in E. destruct E as [_ E]. apply N.ltb_lt in E.
      apply N.ltb_lt. lia. }
    unfold core_debug, perform, bind, ret. cbn [fst toStr]. now rewrite Hs.
  - reflexivity.
Qed.

(** X1: when the context can be read and the network answers with a 2xx
    status the sender returns [true]
    and its effects are the POST followed by one debug line that gives the
    status. *)
Theorem sendNotification_success_trace
  (n url vid vstatus vurl vdetails : jsstring) (w : World) (status : N)
  (data : value) :
  let body := createBody n (createCard (cardArgs (context w) n vid vstatus
                                                 vurl vdetails)) in
  let r := sendNotification n url vid vstatus vurl vdetails w in
  repoKnown w = true ->
  respond w url body = NetResponse status data ->
  (200 <= status)%N -> (status < 300)%N ->
  fst r = Return true
  /\ trace (snd r)
     = trace w ++ [Post url body;
                   Debug (js "request success with status: " ++ decimal status)].
Proof.
  cbv zeta. intros Hk Hr Hlo Hhi. rewrite (sendNotification_trace _ _ _ _ _ _ _ Hk), Hr.
  cbn [fst snd succeeded debugLine].
  apply N.leb_le in Hlo. apply N.ltb_lt in Hhi. rewrite Hlo, Hhi.
  rewrite !trace_emit, <- app_assoc. split; reflexivity.
Qed.

(** X2: when the context can be read and the network answers with a status
    outside 200-299 the sender
    returns [false] and logs, after the POST, one debug line with the body it
    sent and the data of the response, the empty string standing for data
    that is falsy. *)
Theorem sendNotification_rejected_trace
  (n url vid vstatus vurl vdetails : jsstring) (w : World) (status : N)
  (data : value) :
  let body := createBody n (createCard (cardArgs (context w) n vid vstatus
                                                 vurl vdetails)) in
  let r := sendNotification n url vid vstatus vurl vdetails w in
  repoKnown w = true ->
  respond w url body = NetResponse status data ->
  (status < 200)%N \/ (300 <= status)%N ->
  fst r = Return false
  /\ trace (snd r)
     = trace w ++ [Post url body;
                   Debug (js "request failed with error, body: "
                          ++ JSON_stringify body ++ js ", response:"
                          ++ JSON_stringify (if truthy data then data
                                             else VString []))].
Proof.
  cbv zeta. intros Hk Hr Hout. rewrite (sendNotification_trace _ _ _ _ _ _ _ Hk), Hr.
  cbn [fst snd succeeded debugLine].
  assert (E : N.leb 200 status && N.ltb status 300 = false).
  { apply andb_false_iff. destruct Hout as [H|H].
    - left. now apply N.leb_gt.
    - right. now apply N.ltb_ge. }
  rewrite E, !trace_emit, <- app_assoc. split; reflexivity.
Qed.

(** X3: when the context can be read and there is no response at all the
    sender returns [false] and the
    debug line reports the response as the empty string. *)
Theorem sendNotification_unreachable_trace
  (n url vid vstatus vurl vdetails : jsstring) (w : World) (message : jsstring) :
  let body := createBody n (createCard (cardArgs (context w) n vid vstatus
                                                 vurl vdetails)) in
  let r := sendNotification n url vid vstatus vurl vdetails w in
  repoKnown w = true ->
  respond w url body = NetFailure message ->
  fst r = Return false
  /\ trace (snd r)
     = trace w ++ [Post url body;
                   Debug (js "request failed with error, body: "
                          ++ JSON_stringify body ++ js ", response:"
                          ++ JSON_stringify (VString []))].
Proof.
  cbv zeta. intros Hk Hr. rewrite (sendNotification_trace _ _ _ _ _ _ _ Hk), Hr.
  cbn [fst snd succeeded debugLine].
  rewrite !trace_emit, <- app_assoc. split; reflexivity.
Qed.

(** ** Further properties of the entry point *)

Lemma allSupplied_inputs (w : World) :
  allSupplied w = true ->
  str_eqb (inputs w (js "name")) [] = false
  /\ str_eqb (inputs w (js "url")) [] = false
  /\ str_eqb (inputs w (js "validationId")) [] = false
  /\ str_eqb (inputs w (js "validationStatus")) [] = false
  /\ str_eqb (inputs w (js "validationUrl")) [] = false
  /\ str_eqb (inputs w (js "validationDetails")) [] = false.
Proof.
  unfold allSupplied, requiredInputs. cbn [forallb].
  rewrite !andb_true_iff, !negb_true_iff. tauto.
Qed.

(** A run in which every input is supplied and the context can be read: the
    call of the sender, then the report of its result. *)
Lemma run_supplied (w : World) :
  allSupplied w = true -> repoKnown w = true ->
  let url := reqUrl (requestOf w) in
  let answer := respond w url (requestBody w) in
  run w
  = (Return tt,
     emit (if succeeded answer
           then Debug (js "Sent notification: " ++ reqName (requestOf w))
           else SetFailed (js "error sending notification to google chat"))
       (emit (Debug (debugLine (requestBody w) answer))
          (emit (Post url (requestBody w)) w))).
Proof.
  intros H Hk. apply allSupplied_inputs in H.
  destruct H as (H1 & H2 & H3 & H4 & H5 & H6).
  cbv zeta. unfold run, tryCatch, bind.
  rewrite (core_getInput_required "name"), H1. cbv beta iota.
  rewrite (core_getInput_required "url"), H2. cbv beta iota.
  rewrite (core_getInput_required "validationId"), H3. cbv beta iota.
  rewrite (core_getInput_required "validationStatus"), H4. cbv beta iota.
  rewrite (core_getInput_required "validationUrl"), H5. cbv beta iota.
  rewrite (core_getInput_required "validationDetails"), H6. cbv beta iota.
  rewrite (sendNotification_trace _ _ _ _ _ _ _ Hk).
  unfold requestBody, buildCard, requestOf. cbn [reqName reqUrl reqValidationId
    reqValidationStatus reqValidationUrl reqValidationDetails].
  destruct (succeeded _); reflexivity.
Qed.

(** A run in which every input is supplied and the repository is not known:
    the error of the sender is caught and reported. *)
Lemma run_unknown_repo (w : World) :
  allSupplied w = true -> repoKnown w = false ->
  run w
  = (Return tt,
     emit (SetFailed (js "error sending notification to google chat: "
                      ++ exnToStr repoUnknown)) w).
Proof.
  intros H Hk. apply allSupplied_inputs in H.
  destruct H as (H1 & H2 & H3 & H4 & H5 & H6).
  unfold run, tryCatch, bind.
  rewrite (core_getInput_required "name"), H1. cbv beta iota.
  rewrite (core_getInput_required "url"), H2. cbv beta iota.
  rewrite (core_getInput_required "validationId"), H3. cbv beta iota.
  rewrite (core_getInput_required "validationStatus"), H4. cbv beta iota.
  rewrite (core_getInput_required "validationUrl"), H5. cbv beta iota.
  rewrite (core_getInput_required "validationDetails"), H6. cbv beta iota.
  rewrite (sendNotification_unknown_repo _ _ _ _ _ _ _ Hk). reflexivity.
Qed.

(** A run in which [k] is the first input that is not supplied. *)
Lemma run_first_missing (w : World) (k : string) :
  firstMissing w = Some k ->
  run w = (Return tt, emit (SetFailed (missingInputMessage k)) w).
Proof.
  unfold firstMissing, requiredInputs. cbn [find]. intros H.
  unfold run, tryCatch, bind.
  repeat (rewrite core_getInput_required;
          match type of H with
          | (if ?c then _ else _) = _ =>
              destruct c eqn:?; [injection H as <-; reflexivity | cbv beta iota]
          end).
  discriminate.
Qed.

Lemma allSupplied_firstMissing (w : World) :
  allSupplied w = true <-> firstMissing w = None.
Proof.
  unfold allSupplied, firstMissing. generalize requiredInputs.
  induction l as [|k l IH]; cbn [forallb find]; [tauto|].
  destruct (str_eqb (inputs w (js k)) []); cbn [negb andb].
  - split; discriminate.
  - exact IH.
Qed.

Lemma not_allSupplied_firstMissing (w : World) :
  allSupplied w = false -> exists k, firstMissing w = Some k.
Proof.
  intros H. destruct (firstMissing w) as [k|] eqn:E; [now exists k|].
  apply allSupplied_firstMissing in E. congruence.
Qed.

(** X4: when the six inputs are supplied, the context can be read and the
    network answers with a 2xx status, [run] returns after three effects: the POST of the card built
    from the trimmed inputs to the trimmed address, the debug line of the
    sender and the debug line that names the notification; the run is not
    marked as failed. *)
Theorem run_success_trace (w : World) (status : N) (data : value) :
  let r := requestOf w in
  allSupplied w = true -> repoKnown w = true ->
  respond w (reqUrl r) (requestBody w) = NetResponse status data ->
  (200 <= status)%N -> (status < 300)%N ->
  fst (run w) = Return tt
  /\ trace (snd (run w))
     = trace w ++ [Post (reqUrl r) (requestBody w);
                   Debug (js "request success with status: " ++ decimal status);
                   Debug (js "Sent notification: " ++ reqName r)]
  /\ failed (snd (run w)) = failed w.
Proof.
  cbv zeta. intros Hall Hk Hr Hlo Hhi. rewrite (run_supplied w Hall Hk). cbv zeta.
  rewrite Hr. cbn [fst snd succeeded debugLine].
  apply N.leb_le in Hlo. apply N.ltb_lt in Hhi. rewrite Hlo, Hhi.
  cbn [andb]. rewrite !failed_emit, !trace_emit, <- !app_assoc.
  cbn [isSetFailed]. rewrite !orb_false_r. repeat split.
Qed.

(** X5: when the six inputs are supplied, the context can be read and the
    delivery does not succeed,
    [run] returns after the POST, the debug line of the sender and the mark
    of failure with the message "error sending notification to google chat":
    there is no second POST. *)
Theorem run_delivery_failure_trace (w : World) :
  let r := requestOf w in
  let answer := respond w (reqUrl r) (requestBody w) in
  allSupplied w = true -> repoKnown w = true ->
  succeeded answer = false ->
  fst (run w) = Return tt
  /\ trace (snd (run w))
     = trace w ++ [Post (reqUrl r) (requestBody w);
                   Debug (debugLine (requestBody w) answer);
                   SetFailed (js "error sending notification to google chat")]
  /\ failed (snd (run w)) = true.
Proof.
  cbv zeta. intros Hall Hk Hfail. rewrite (run_supplied w Hall Hk). cbv zeta.
  rewrite Hfail. cbn [fst snd].
  rewrite !failed_emit, !trace_emit, <- !app_assoc.
  cbn [isSetFailed]. rewrite orb_true_r. repeat split.
Qed.

(** X6: [run] never raises: in every world it returns, having left the
    inputs, the context and the network as they were and added between one
    and three effects to the trace. *)
Theorem run_always_returns (w : World) :
  fst (run w) = Return tt
  /\ inputs (snd (run w)) = inputs w
  /\ context (snd (run w)) = context w
  /\ respond (snd (run w)) = respond w
  /\ exists effects,
       trace (snd (run w)) = trace w ++ effects
       /\ 1 <= List.length effects <= 3.
Proof.
  destruct (allSupplied w) eqn:Hall; [destruct (repoKnown w) eqn:Hk|].
  - rewrite (run_supplied w Hall Hk). cbv zeta. cbn [fst snd].
    repeat split.
    eexists. rewrite !trace_emit, <- !app_assoc. split; [reflexivity|].
    simpl. lia.
  - rewrite (run_unknown_repo w Hall Hk). cbn [fst snd]. repeat split.
    eexists. rewrite trace_emit. split; [reflexivity|]. simpl. lia.
  - destruct (not_allSupplied_firstMissing w Hall) as [k Hk].
    rewrite (run_first_missing w k Hk). cbn [fst snd]. repeat split.
    eexists. rewrite trace_emit. split; [reflexivity|]. simpl. lia.
Qed.

(** X7: [run] reads the inputs in the order name, url, validationId,
    validationStatus, validationUrl, validationDetails and stops at the
    first that is not supplied: its only effect is the mark of failure with
    the message that names that input. *)
Theorem run_reports_first_missing (w : World) (k : string) :
  firstMissing w = Some k ->
  inputs w (js k) = []
  /\ trace (snd (run w))
     = trace w ++ [SetFailed (js "error sending notification to google chat: "
                              ++ js "Error: Input required and not supplied: "
                              ++ js k)].
Proof.
  intros Hk. rewrite (run_first_missing w k Hk). cbn [snd]. split.
  - unfold firstMissing in Hk. apply find_some in Hk.
    now apply str_eqb_eq.
  - reflexivity.
Qed.

(** X8: [run] makes one POST when the six inputs are supplied and the
    context can be read, and none otherwise, whatever the network answers. *)
Theorem run_posts (w : World) :
  posts (snd (run w))
  = posts w ++ (if allSupplied w && repoKnown w
                then [Post (reqUrl (requestOf w)) (requestBody w)]
                else []).
Proof.
  destruct (allSupplied w) eqn:Hall; [destruct (repoKnown w) eqn:Hk|].
  - rewrite (run_supplied w Hall Hk). cbv zeta. cbn [snd andb].
    rewrite !posts_emit.
    destruct (succeeded _); cbn [isPost]; now rewrite !app_nil_r.
  - rewrite (run_unknown_repo w Hall Hk). cbn [snd andb].
    now rewrite posts_emit.
  - destruct (not_allSupplied_firstMissing w Hall) as [k Hk].
    rewrite (run_first_missing w k Hk). cbn [snd andb].
    now rewrite posts_emit.
Qed.

(** X9: after [run] the run is marked as failed exactly when it was before,
    an input is missing, the context cannot be read (the error of the sender
    is caught and reported) or the delivery did not succeed. *)
Theorem run_failed (w : World) :
  failed (snd (run w))
  = failed w
    || negb (allSupplied w && repoKnown w
             && succeeded (respond w (reqUrl (requestOf w)) (requestBody w))).
Proof.
  destruct (allSupplied w) eqn:Hall; [destruct (repoKnown w) eqn:Hk|].
  - rewrite (run_supplied w Hall Hk). cbv zeta. cbn [snd andb].
    rewrite !failed_emit.
    destruct (succeeded _); cbn [isSetFailed negb]; now rewrite !orb_false_r.
  - rewrite (run_unknown_repo w Hall Hk). cbn [snd andb negb].
    now rewrite failed_emit.
  - destruct (not_allSupplied_firstMissing w Hall) as [k Hk].
    rewrite (run_first_missing w k Hk). cbn [snd andb negb].
    now rewrite failed_emit.
Qed.

(** ** Further properties of the builder *)

(** *** The event *)

Lemma inheritedName_spec (l : jsstring) :
  inherited l = VUndefined /\ inheritedName l = false
  \/ truthy (inherited l) = true /\ inheritedName l = true
     /\ (forall s, inherited l <> VString s).
Proof.
  unfold inherited, inheritedName.
  destruct (str_eqb l (js "constructor")); [right; repeat split; discriminate|].
  destruct (str_eqb l (js "__proto__")); [right; repeat split; discriminate|].
  destruct (existsb (str_eqb l) objectPrototypeMethods);
    [right; repeat split; discriminate | left; split; reflexivity].
Qed.

(** The event type, by the lower-cased name of the event. *)
Lemma eventTypeOf_cases (e : option jsstring) :
  let l := toLowerCase (orEmpty e) in
  eventTypeOf e
  = if str_eqb l (js "pull_request") then str "pull_request"
    else if str_eqb l (js "push") then str "push"
    else if str_eqb l (js "workflow_dispatch") then str "workflow_dispatch"
    else if inheritedName l then inherited l
    else str "push".
Proof.
  cbv zeta. unfold eventTypeOf. rewrite events_lookup.
  destruct (str_eqb _ (js "pull_request")); [reflexivity|].
  destruct (str_eqb _ (js "push")); [reflexivity|].
  destruct (str_eqb _ (js "workflow_dispatch")); [reflexivity|].
  destruct (inheritedName_spec (toLowerCase (orEmpty e)))
    as [[H1 H2]|(H1 & H2 & _)]; rewrite H2.
  - rewrite H1. reflexivity.
  - unfold or_else. now rewrite H1.
Qed.

(** X10: the label of the event widget is "Pull Request" when the lower-cased
    event name is "pull_request", "Workflow Dispatch" when it is
    "workflow_dispatch" or the name of an inherited property, and "Push" for
    every other name, "push" and the absent name included. *)
Theorem event_label_by_name (a : CardArgs) :
  let l := toLowerCase (orEmpty (eventName a)) in
  field "text" (eventWidget (createCard a))
  = VString (if str_eqb l (js "pull_request") then js "Pull Request"
             else if str_eqb l (js "workflow_dispatch") || inheritedName l
                  then js "Workflow Dispatch"
                  else js "Push").
Proof.
  cbv zeta. rewrite eventWidget_text, eventTypeOf_cases. cbv zeta.
  destruct (str_eqb _ (js "pull_request")); [reflexivity|].
  destruct (str_eqb _ (js "push")) eqn:Epush.
  - apply str_eqb_eq in Epush. rewrite Epush. reflexivity.
  - destruct (str_eqb _ (js "workflow_dispatch")); [reflexivity|].
    cbn [orb].
    destruct (inheritedName_spec (toLowerCase (orEmpty (eventName a))))
      as [[H1 H2]|(H1 & H2 & H3)]; rewrite H2; [reflexivity|].
    unfold eventNameFmtOf.
    destruct (inherited _); try reflexivity.
    exfalso. now apply (H3 s).
Qed.

(** X11: when the lower-cased event name is not the name of an inherited
    property, the icon of the event widget is one of three fixed addresses:
    that of "pull_request" or "workflow_dispatch" for these events, that of
    "push" for every other name. *)
Theorem event_icon_by_name (a : CardArgs) :
  let l := toLowerCase (orEmpty (eventName a)) in
  inheritedName l = false ->
  iconUrl (eventWidget (createCard a))
  = if str_eqb l (js "pull_request") then eventIcon "pull_request"
    else if str_eqb l (js "workflow_dispatch") then eventIcon "workflow_dispatch"
    else eventIcon "push".
Proof.
  cbv zeta. intros Hin.
  change (iconUrl (eventWidget (createCard a)))
    with (VString (assetsUrl ++ js "event_"
                   ++ toStr (eventTypeOf (eventName a)) ++ js ".png")).
  rewrite eventTypeOf_cases. cbv zeta. rewrite Hin.
  destruct (str_eqb _ (js "pull_request")); [reflexivity|].
  destruct (str_eqb _ (js "push")) eqn:Epush.
  - apply str_eqb_eq in Epush. rewrite Epush. reflexivity.
  - destruct (str_eqb _ (js "workflow_dispatch")); reflexivity.
Qed.

(** X12: an event whose lower-cased name is an inherited property of the
    table of events (constructor, __proto__) is not replaced by "push": it
    is labelled "Workflow Dispatch", linked as a commit, and its icon is none
    of the three icons of the events. *)
Theorem inherited_event_name (a : CardArgs) :
  let l := toLowerCase (orEmpty (eventName a)) in
  inheritedName l = true ->
  field "text" (eventWidget (createCard a)) = str "Workflow Dispatch"
  /\ buttonUrl (eventWidget (createCard a))
     = VString (js "https://github.com/" ++ owner a ++ js "/" ++ repo a
                ++ js "/commit/" ++ sha a)
  /\ ~ In (iconUrl (eventWidget (createCard a)))
          [eventIcon "pull_request"; eventIcon "push";
           eventIcon "workflow_dispatch"].
Proof.
  cbv zeta. intros Hin.
  assert (Hty : eventTypeOf (eventName a)
                = inherited (toLowerCase (orEmpty (eventName a)))).
  { rewrite eventTypeOf_cases. cbv zeta. rewrite Hin.
    unfold inheritedName in Hin.
    destruct (str_eqb _ (js "pull_request")) eqn:E1;
      [apply str_eqb_eq in E1; rewrite E1 in Hin; discriminate|].
    destruct (str_eqb _ (js "push")) eqn:E2;
      [apply str_eqb_eq in E2; rewrite E2 in Hin; discriminate|].
    destruct (str_eqb _ (js "workflow_dispatch")) eqn:E3;
      [apply str_eqb_eq in E3; rewrite E3 in Hin; discriminate|].
    reflexivity. }
  change (iconUrl (eventWidget (createCard a)))
    with (VString (assetsUrl ++ js "event_"
                   ++ toStr (eventTypeOf (eventName a)) ++ js ".png")).
  rewrite eventWidget_text, eventWidget_url, Hty.
  unfold inherited, inheritedName in *.
  destruct (str_eqb _ (js "constructor")).
  { repeat split.
    - unfold repoUrlOf. now rewrite <- !app_assoc.
    - intros [H|[H|[H|[]]]]; cbv in H; discriminate H. }
  destruct (str_eqb _ (js "__proto__")).
  { repeat split.
    - unfold repoUrlOf. now rewrite <- !app_assoc.
    - intros [H|[H|[H|[]]]]; cbv in H; discriminate H. }
  cbn [orb] in Hin. rewrite Hin.
  repeat split.
  - unfold repoUrlOf. now rewrite <- !app_assoc.
  - generalize (toLowerCase (orEmpty (eventName a))). intros l.
    intros [H|[H|[H|[]]]]; cbv in H; discriminate H.
Qed.

(** X13: for a pull request whose payload has no number the link of the
    event ends in [/pull/undefined]. *)
Theorem pull_request_without_number (a : CardArgs) :
  toLowerCase (orEmpty (eventName a)) = js "pull_request" ->
  number a = None ->
  buttonUrl (eventWidget (createCard a))
  = VString (js "https://github.com/" ++ owner a ++ js "/" ++ repo a
             ++ js "/pull/undefined")
  /\ buttonUrl (statusWidget (createCard a))
     = VString (js "https://github.com/" ++ owner a ++ js "/" ++ repo a
                ++ js "/pull/undefined/checks").
Proof.
  intros He Hn. rewrite eventWidget_url, statusWidget_url.
  unfold eventPathOf. rewrite eventType_is_pull_request, He, Hn.
  unfold repoUrlOf. rewrite <- !app_assoc. split; reflexivity.
Qed.

(** *** Upper and lower case *)

Lemma asciiLower_asciiUpper (c : char16) : asciiLower (asciiUpper c) = asciiLower c.
Proof.
  unfold asciiLower, asciiUpper.
  destruct (N.leb_spec 97 c), (N.leb_spec c 122); cbn [andb];
    repeat match goal with
           | |- context [N.leb ?x ?y] => destruct (N.leb_spec x y)
           end; cbn [andb]; lia.
Qed.

Lemma asciiUpper_isAscii (c : char16) :
  isAscii c = true -> isAscii (asciiUpper c) = true.
Proof.
  unfold isAscii, asciiUpper. intros H. apply N.ltb_lt in H.
  apply N.ltb_lt.
  destruct (N.leb 97 c && N.leb c 122); lia.
Qed.

Lemma map_asciiUpper_isAscii (s : jsstring) :
  isAsciiString s = true -> isAsciiString (map asciiUpper s) = true.
Proof.
  unfold isAsciiString. induction s as [|c s IH]; cbn [forallb map]; [easy|].
  intros H. apply andb_prop in H. destruct H as [Hc Hs].
  now rewrite (asciiUpper_isAscii c Hc), (IH Hs).
Qed.

(** Lower-casing undoes the upper-casing of an ASCII string. *)
Lemma toLowerCase_toUpperCase (s : jsstring) :
  isAsciiString s = true -> toLowerCase (toUpperCase s) = toLowerCase s.
Proof.
  intros H. unfold toUpperCase, toLowerCase.
  rewrite H, (map_asciiUpper_isAscii s H), map_map.
  apply map_ext. exact asciiLower_asciiUpper.
Qed.

(** X14: the label of an ASCII status is the status with its first code unit
    upper-cased when that is a letter from a to z, and the status itself
    otherwise; the label of the empty status is empty. *)
Theorem status_label_ascii (s : jsstring) :
  isAsciiString s = true ->
  statusNameOf s
  = match s with
    | [] => []
    | c :: rest => (if N.leb 97 c && N.leb c 122 then (c - 32)%N else c) :: rest
    end.
Proof.
  intros H. rewrite statusNameOf_eq. destruct s as [|c rest]; [reflexivity|].
  cbn [firstn skipn]. unfold toUpperCase.
  unfold isAsciiString in *. cbn [forallb] in *.
  apply andb_prop in H. destruct H as [Hc _]. rewrite Hc. reflexivity.
Qed.

(** X15: the colour and the icon of the status do not depend on the case of
    an ASCII status: the card for the upper-cased status has the icon of the
    card for the status, and the two status texts have the same colour. *)
Theorem status_case_insensitive (a : CardArgs) (s : jsstring) :
  isAsciiString s = true ->
  iconUrl (statusWidget (createCard (withStatus a (toUpperCase s))))
  = iconUrl (statusWidget (createCard (withStatus a s)))
  /\ exists colour,
       field "text" (statusWidget (createCard (withStatus a s)))
       = VString (statusMarkup colour (statusNameOf s))
       /\ field "text" (statusWidget (createCard (withStatus a (toUpperCase s))))
          = VString (statusMarkup colour (statusNameOf (toUpperCase s))).
Proof.
  intros H. rewrite !statusWidget_icon, !statusWidget_text.
  cbn [withStatus validationStatus].
  rewrite (toLowerCase_toUpperCase s H). split; [reflexivity|].
  eexists. split; reflexivity.
Qed.

Lemma eventWidget_of_eventType (a : CardArgs) :
  eventWidget (createCard a)
  = VObject [
      prop "icon" (VObject [prop "iconUrl"
        (VString (assetsUrl ++ js "event_" ++ toStr (eventTypeOf (eventName a))
                  ++ js ".png"))]);
      prop "topLabel" (str "Event");
      prop "text" (VString (eventNameFmtOf (eventTypeOf (eventName a))));
      prop "button" (VObject [
        prop "text" (str "Open Event");
        prop "onClick" (openLink
          (repoUrlOf (owner a) (repo a)
           ++ eventPathOf (eventTypeOf (eventName a)) (number a) (sha a)))])].
Proof. reflexivity. Qed.

(** X16: the event widget does not depend on the case of an ASCII event
    name. *)
Theorem event_case_insensitive (a : CardArgs) (e : jsstring) :
  isAsciiString e = true ->
  eventWidget (createCard (withEventName a (Some (toUpperCase e))))
  = eventWidget (createCard (withEventName a (Some e))).
Proof.
  intros H. rewrite !eventWidget_of_eventType.
  cbn [withEventName eventName owner repo number sha].
  unfold eventTypeOf. cbn [orEmpty].
  now rewrite (toLowerCase_toUpperCase e H).
Qed.

(** *** What the card keeps and what it ignores *)

(** X17: the card does not depend on the name of the workflow. *)
Theorem createCard_ignores_workflow (a : CardArgs) (wf : jsstring) :
  createCard (withWorkflow a wf) = createCard a.
Proof. reflexivity. Qed.

(** X18: the card keeps the name, the ref, the actor, the identifier, the
    address and the details of the validation as they are: the title of the
    header is the name, the texts of the third and fourth widgets of the
    first section are the ref and the actor, the summary shows the
    identifier with a button to the address, and its paragraph is the
    details. *)
Theorem createCard_keeps_arguments (a : CardArgs) :
  headerTitle (createCard a) = VString (name a)
  /\ widgetText 2 (createCard a) = VString (ref a)
  /\ widgetText 3 (createCard a) = VString (actor a)
  /\ field "text" (decoratedText (summaryWidget 0 (createCard a)))
     = VString (validationId a)
  /\ buttonUrl (decoratedText (summaryWidget 0 (createCard a)))
     = VString (validationUrl a)
  /\ field "text" (field "textParagraph" (summaryWidget 1 (createCard a)))
     = VString (validationDetails a).
Proof. repeat split. Qed.

(** *** The envelope of any object *)

Lemma str_eqb_refl (s : jsstring) : str_eqb s s = true.
Proof. now apply str_eqb_eq. Qed.

(** Reading a property after writing it, and after writing another. *)
Lemma assoc_setProp_same (fields : list (jsstring * value)) (k : jsstring)
  (v : value) :
  assoc k (setProp fields k v) = Some v.
Proof.
  induction fields as [|[k' v'] rest IH]; cbn [setProp assoc].
  - now rewrite str_eqb_refl.
  - destruct (str_eqb k k') eqn:E.
    + cbn [assoc]. now rewrite str_eqb_refl.
    + destruct (indexOfKey k) as [i|], (indexOfKey k') as [j|];
        try destruct (N.ltb i j); cbn [assoc];
        rewrite ?str_eqb_refl, ?E; auto.
Qed.

Lemma assoc_setProp_other (fields : list (jsstring * value)) (k k0 : jsstring)
  (v : value) :
  str_eqb k0 k = false -> assoc k0 (setProp fields k v) = assoc k0 fields.
Proof.
  intros Hk. induction fields as [|[k' v'] rest IH]; cbn [setProp assoc].
  - now rewrite Hk.
  - destruct (str_eqb k k') eqn:E.
    + apply str_eqb_eq in E. subst k'. cbn [assoc]. now rewrite Hk.
    + destruct (indexOfKey k) as [i|], (indexOfKey k') as [j|];
        try destruct (N.ltb i j); cbn [assoc];
        rewrite ?Hk, ?IH; reflexivity.
Qed.

Lemma assoc_app (k : jsstring) (l1 l2 : list (jsstring * value)) :
  assoc k (l1 ++ l2)
  = match assoc k l1 with Some v => Some v | None => assoc k l2 end.
Proof.
  induction l1 as [|[k' v'] l1 IH]; cbn [app assoc]; [reflexivity|].
  destruct (str_eqb k k'); [reflexivity | exact IH].
Qed.

(** A property of a spread is the last one written for its key. *)
Lemma assoc_fold_setProp (src target : list (jsstring * value)) (k : jsstring) :
  assoc k (fold_left (fun acc kv => setProp acc (fst kv) (snd kv)) src target)
  = match assoc k (rev src) with
    | Some v => Some v
    | None => assoc k target
    end.
Proof.
  revert target. induction src as [|[k1 v1] src IH]; intros target;
    cbn [fold_left rev fst snd]; [reflexivity|].
  rewrite IH, assoc_app. destruct (assoc k (rev src)); [reflexivity|].
  cbn [assoc]. destruct (str_eqb k k1) eqn:E.
  - apply str_eqb_eq in E. subst. apply assoc_setProp_same.
  - now apply assoc_setProp_other.
Qed.

Lemma assoc_Some_In (k : jsstring) (v : value) (l : list (jsstring * value)) :
  assoc k l = Some v -> In (k, v) l.
Proof.
  induction l as [|[k' v'] l IH]; cbn [assoc]; [discriminate|].
  destruct (str_eqb k k') eqn:E.
  - intros H. injection H as <-. apply str_eqb_eq in E. subst. now left.
  - intros H. right. now apply IH.
Qed.

Lemma In_assoc (k : jsstring) (v : value) (l : list (jsstring * value)) :
  NoDup (map fst l) -> In (k, v) l -> assoc k l = Some v.
Proof.
  induction l as [|[k' v'] l IH]; cbn [map fst assoc]; [intros _ []|].
  intros Hnd Hin. inversion Hnd as [|? ? Hnotin Hnd']; subst.
  destruct Hin as [Heq|Hin].
  - injection Heq as -> ->. now rewrite str_eqb_refl.
  - destruct (str_eqb k k') eqn:E.
    + apply str_eqb_eq in E. subst k'. exfalso. apply Hnotin.
      change k with (fst (k, v)). now apply in_map.
    + now apply IH.
Qed.

(** With distinct keys the order of the properties does not matter for a
    lookup. *)
Lemma assoc_rev (k : jsstring) (l : list (jsstring * value)) :
  NoDup (map fst l) -> assoc k (rev l) = assoc k l.
Proof.
  intros Hnd.
  assert (Hnd' : NoDup (map fst (rev l))) by (rewrite map_rev; now apply NoDup_rev).
  destruct (assoc k l) as [v|] eqn:E.
  - apply assoc_Some_In in E. apply In_assoc; [exact Hnd'|].
    now apply in_rev in E.
  - destruct (assoc k (rev l)) as [v|] eqn:E'; [|reflexivity].
    apply assoc_Some_In in E'. apply in_rev in E'.
    rewrite (In_assoc k v l Hnd E') in E. discriminate.
Qed.

(** X19: the envelope keeps every property of the object it is given, and a
    property "name" of that object replaces the name of the envelope; the
    name argument is the name of the enveloped card only when the object has
    none. *)
Theorem createBody_keeps_properties (n : jsstring)
  (fields : list (jsstring * value)) (k : jsstring) :
  NoDup (map fst fields) ->
  assoc k (fieldsOf (envelopedCard (createBody n (VObject fields))))
  = match assoc k fields with
    | Some v => Some v
    | None => if str_eqb k (js "name") then Some (VString n) else None
    end.
Proof.
  intros Hnd.
  change (fieldsOf (envelopedCard (createBody n (VObject fields))))
    with (spread [prop "name" (VString n)] (VObject fields)).
  unfold spread. cbn [ownEnumerable].
  rewrite assoc_fold_setProp, (assoc_rev k fields Hnd).
  destruct (assoc k fields); reflexivity.
Qed.

End Properties.

(** ** The properties at concrete inputs *)

(** C1, at the status "unknown": the label is "Unknown". *)
Lemma status_other_witness :
  exampleStatusText "unknown" = VString (statusMarkup (js "#ffc107") (js "Unknown"))
  /\ iconUrl (statusWidget (exampleCard (Some "push"%string) "unknown" "build"))
     = statusIcon "cancelled".
Proof.
  apply (status_other_amber_label_kept (engine := asciiEngine)
           (exampleArgs (Some "push"%string) "unknown" "build"));
    vm_compute; discriminate.
Defined.

(** C1 as the specification states it fails: the statuses "unknown",
    "CANCELLED" and the empty one are neither "success" nor "failure" in
    lower case, and their labels are "Unknown", "CANCELLED" and the empty
    string, none of them the word "Cancelled". *)
Lemma status_label_not_forced :
  (exampleLower "unknown" <> js "success"
   /\ exampleLower "unknown" <> js "failure"
   /\ exampleStatusText "unknown" = VString (statusMarkup (js "#ffc107") (js "Unknown"))
   /\ exampleStatusText "unknown" <> VString (statusMarkup (js "#ffc107") (js "Cancelled")))
  /\
  (exampleLower "CANCELLED" <> js "success"
   /\ exampleLower "CANCELLED" <> js "failure"
   /\ exampleStatusText "CANCELLED" = VString (statusMarkup (js "#ffc107") (js "CANCELLED"))
   /\ exampleStatusText "CANCELLED" <> VString (statusMarkup (js "#ffc107") (js "Cancelled")))
  /\
  (exampleLower EmptyString <> js "success"
   /\ exampleLower EmptyString <> js "failure"
   /\ exampleStatusText EmptyString = VString (statusMarkup (js "#ffc107") [])
   /\ exampleStatusText EmptyString <> VString (statusMarkup (js "#ffc107") (js "Cancelled"))).
Proof.
  repeat split; try reflexivity; vm_compute; discriminate.
Qed.

(** C2, at the event "weird_event". *)
Lemma unrecognized_event_witness :
  buttonUrl (exampleEvent (Some "weird_event"%string))
  = str "https://github.com/octo/demo/commit/abc123"
  /\ field "text" (exampleEvent (Some "weird_event"%string)) = str "Push".
Proof.
  apply (unrecognized_event_is_push (engine := asciiEngine)
           (exampleArgs (Some "weird_event"%string) "success" "build"));
    try reflexivity; vm_compute; discriminate.
Defined.

(** C2 as the specification states it fails: the event "weird_event", and an
    empty or absent event name, are not recognised, get the link of a push,
    and their label is "Push", not "Workflow Dispatch". *)
Lemma unrecognized_event_label_is_not_dispatch :
  (exampleLower "weird_event" <> js "pull_request"
   /\ exampleLower "weird_event" <> js "push"
   /\ exampleLower "weird_event" <> js "workflow_dispatch"
   /\ buttonUrl (exampleEvent (Some "weird_event"%string)) = str "https://github.com/octo/demo/commit/abc123"
   /\ field "text" (exampleEvent (Some "weird_event"%string)) = str "Push"
   /\ field "text" (exampleEvent (Some "weird_event"%string)) <> str "Workflow Dispatch")
  /\
  (exampleLower EmptyString <> js "pull_request"
   /\ exampleLower EmptyString <> js "push"
   /\ exampleLower EmptyString <> js "workflow_dispatch"
   /\ buttonUrl (exampleEvent (Some EmptyString)) = str "https://github.com/octo/demo/commit/abc123"
   /\ field "text" (exampleEvent (Some EmptyString)) = str "Push"
   /\ field "text" (exampleEvent (Some EmptyString)) <> str "Workflow Dispatch")
  /\
  (exampleLower EmptyString <> js "pull_request"
   /\ exampleLower EmptyString <> js "push"
   /\ exampleLower EmptyString <> js "workflow_dispatch"
   /\ buttonUrl (exampleEvent None) = str "https://github.com/octo/demo/commit/abc123"
   /\ field "text" (exampleEvent None) = str "Push"
   /\ field "text" (exampleEvent None) <> str "Workflow Dispatch").
Proof.
  repeat split; try reflexivity; vm_compute; discriminate.
Qed.

(** The label "Workflow Dispatch" is that of the event "workflow_dispatch",
    and of the two names that the table of events inherits. *)
Example workflow_dispatch_label :
  field "text" (exampleEvent (Some "workflow_dispatch"%string)) = str "Workflow Dispatch"
  /\ field "text" (exampleEvent (Some "WORKFLOW_DISPATCH"%string)) = str "Workflow Dispatch"
  /\ field "text" (exampleEvent (Some "constructor"%string)) = str "Workflow Dispatch"
  /\ field "text" (exampleEvent (Some "__proto__"%string)) = str "Workflow Dispatch"
  /\ field "text" (exampleEvent (Some "pull_request"%string)) = str "Pull Request"
  /\ field "text" (exampleEvent (Some "Push"%string)) = str "Push".
Proof. repeat split. Qed.

(** C3, at the statuses "success", "failure" and "SUCCESS": the labels are
    "Success", "Failure" and "SUCCESS". *)
Lemma status_success_failure_witness :
  exampleStatusText "success" = VString (statusMarkup (js "#2cbe4e") (js "Success"))
  /\ exampleStatusText "failure" = VString (statusMarkup (js "#ff0000") (js "Failure"))
  /\ exampleStatusText "SUCCESS" = VString (statusMarkup (js "#2cbe4e") (js "SUCCESS")).
Proof.
  split; [|split].
  - apply (status_success_failure_colour_label (engine := asciiEngine)
             (exampleArgs (Some "push"%string) "success" "build") "#2cbe4e").
    left. split; reflexivity.
  - apply (status_success_failure_colour_label (engine := asciiEngine)
             (exampleArgs (Some "push"%string) "failure" "build") "#ff0000").
    right. split; reflexivity.
  - apply (status_success_failure_colour_label (engine := asciiEngine)
             (exampleArgs (Some "push"%string) "SUCCESS" "build") "#2cbe4e").
    left. split; reflexivity.
Defined.

(** C4, at the boundary: a name of 45 code units has its widget, one of 44
    has none. *)
Lemma name_widget_witness :
  (exists w,
      In w (firstSectionWidgets (exampleCard (Some "push"%string) "success" name45))
      /\ isNameWidget (js name45) w)
  /\ (forall w,
        In w (firstSectionWidgets (exampleCard (Some "push"%string) "success" name44)) ->
        field "topLabel" (decoratedText w) <> str "Name").
Proof.
  split.
  - apply (name_widget_iff_long_name (engine := asciiEngine)
             (exampleArgs (Some "push"%string) "success" name45)).
    apply Nat.leb_le. reflexivity.
  - apply (name_widget_iff_long_name (engine := asciiEngine)
             (exampleArgs (Some "push"%string) "success" name44)).
    apply Nat.leb_le. reflexivity.
Defined.

(** C7, in a world where [validationUrl] is not supplied. *)
Lemma missing_input_witness :
  fst exampleRun = Return tt
  /\ posts (snd exampleRun) = []
  /\ failed (snd exampleRun) = true.
Proof.
  apply (missing_input_fails_without_post (engine := asciiEngine) exampleWorld).
  exists "validationUrl"%string. split; [simpl; tauto | reflexivity].
Defined.

(** C6, in a world where the context can be read and the network answers
    200: the sender returns [true] after one POST. *)
Lemma sendNotification_one_post_witness :
  fst (sendRequest (engine := asciiEngine) exampleRequest completeWorld)
  = Return true
  /\ posts (snd (sendRequest (engine := asciiEngine) exampleRequest completeWorld))
     = [Post (js "https://chat.example.com/hook")
          (createBody (js "build")
             (buildCard (engine := asciiEngine) exampleRequest exampleContext))].
Proof.
  destruct (sendNotification_one_post (engine := asciiEngine)
              (js "build") (js "https://chat.example.com/hook") (js "lint")
              (js "success") (js "https://example.com/lint") (js "2 warnings")
              completeWorld) as (H1 & H2 & _).
  split; [exact H1 | exact H2].
Defined.

(** C6 as the specification states it fails: in a world where the repository
    of the run is not known the sender raises, so it returns neither [true]
    nor [false], and it makes no POST. *)
Lemma sendNotification_raises_without_repo :
  fst (sendRequest (engine := asciiEngine) exampleRequest detachedWorld)
  = Throw repoUnknown
  /\ (forall b : bool,
        fst (sendRequest (engine := asciiEngine) exampleRequest detachedWorld)
        <> Return b)
  /\ posts (snd (sendRequest (engine := asciiEngine) exampleRequest detachedWorld))
     = [].
Proof.
  repeat split. intros b H. vm_compute in H. discriminate H.
Qed.

(** C8, at a pull request with the number 42 and at a push of the commit
    abc123. *)
Lemma event_and_checks_urls_witness :
  (buttonUrl (exampleEvent (Some "pull_request"%string))
   = str "https://github.com/octo/demo/pull/42"
   /\ buttonUrl (statusWidget (exampleCard (Some "pull_request"%string)
                                           "success" "build"))
      = str "https://github.com/octo/demo/pull/42/checks")
  /\ (buttonUrl (exampleEvent (Some "push"%string))
      = str "https://github.com/octo/demo/commit/abc123"
      /\ buttonUrl (statusWidget (exampleCard (Some "push"%string)
                                              "success" "build"))
         = str "https://github.com/octo/demo/commit/abc123/checks").
Proof.
  split.
  - destruct (event_and_checks_urls (engine := asciiEngine)
                (exampleArgs (Some "pull_request"%string) "success" "build"))
      as (H1 & H2 & _).
    split; [exact H1 | exact H2].
  - destruct (event_and_checks_urls (engine := asciiEngine)
                (exampleArgs (Some "push"%string) "success" "build"))
      as (H1 & H2 & _).
    split; [exact H1 | exact H2].
Defined.

(** X1, for a network that answers 200. *)
Lemma sendNotification_success_witness :
  fst (sendRequest (engine := asciiEngine) exampleRequest completeWorld)
  = Return true
  /\ trace (snd (sendRequest (engine := asciiEngine) exampleRequest completeWorld))
     = [Post (js "https://chat.example.com/hook")
          (createBody (js "build")
             (buildCard (engine := asciiEngine) exampleRequest exampleContext));
        Debug (js "request success with status: 200")].
Proof.
  apply (sendNotification_success_trace (engine := asciiEngine)
           (js "build") (js "https://chat.example.com/hook") (js "lint")
           (js "success") (js "https://example.com/lint") (js "2 warnings")
           completeWorld 200 (VString []));
    [reflexivity | reflexivity | lia | lia].
Defined.

(** X2, for a network that answers 500. *)
Lemma sendNotification_rejected_witness :
  fst (sendRequest (engine := asciiEngine) exampleRequest rejectedWorld)
  = Return false.
Proof.
  apply (sendNotification_rejected_trace (engine := asciiEngine)
           (js "build") (js "https://chat.example.com/hook") (js "lint")
           (js "success") (js "https://example.com/lint") (js "2 warnings")
           rejectedWorld 500 (VString (js "oops")));
    [reflexivity | reflexivity | right; lia].
Defined.

(** X3, for a network that does not answer. *)
Lemma sendNotification_unreachable_witness :
  fst (sendRequest (engine := asciiEngine) exampleRequest unreachableWorld)
  = Return false.
Proof.
  apply (sendNotification_unreachable_trace (engine := asciiEngine)
           (js "build") (js "https://chat.example.com/hook") (js "lint")
           (js "success") (js "https://example.com/lint") (js "2 warnings")
           unreachableWorld (js "ECONNREFUSED")); reflexivity.
Defined.

(** X4, in a world whose inputs have spaces around: the POST goes to the
    trimmed address and the notification is named by the trimmed name. *)
Lemma run_success_witness :
  fst (run (engine := asciiEngine) completeWorld) = Return tt
  /\ trace (snd (run (engine := asciiEngine) completeWorld))
     = [Post (js "url") (requestBody (engine := asciiEngine) completeWorld);
        Debug (js "request success with status: 200");
        Debug (js "Sent notification: name")]
  /\ failed (snd (run (engine := asciiEngine) completeWorld)) = false.
Proof.
  apply (run_success_trace (engine := asciiEngine) completeWorld 200 (VString []));
    [reflexivity | reflexivity | reflexivity | lia | lia].
Defined.

(** X5, for a network that answers 500. *)
Lemma run_delivery_failure_witness :
  fst (run (engine := asciiEngine) rejectedWorld) = Return tt
  /\ failed (snd (run (engine := asciiEngine) rejectedWorld)) = true
  /\ List.length (posts (snd (run (engine := asciiEngine) rejectedWorld))) = 1.
Proof.
  destruct (run_delivery_failure_trace (engine := asciiEngine) rejectedWorld)
    as (H1 & H2 & H3); [reflexivity | reflexivity | reflexivity |].
  split; [exact H1 | split; [exact H3|]].
  unfold posts. rewrite H2. reflexivity.
Defined.

(** X7, in a world where [url] and [validationDetails] are missing: the
    message names [url]. *)
Lemma run_reports_first_missing_witness :
  trace (snd (run (engine := asciiEngine) twoMissingWorld))
  = [SetFailed (js "error sending notification to google chat: Error: Input required and not supplied: url")].
Proof.
  apply (run_reports_first_missing (engine := asciiEngine) twoMissingWorld "url").
  reflexivity.
Defined.

(** X11, at the event "weird_event": the icon of a push. *)
Lemma event_icon_witness :
  iconUrl (exampleEvent (Some "weird_event"%string)) = eventIcon "push".
Proof.
  apply (event_icon_by_name (engine := asciiEngine)
           (exampleArgs (Some "weird_event"%string) "success" "build")).
  reflexivity.
Defined.

(** X12, at the event "Constructor". *)
Lemma inherited_event_name_witness :
  field "text" (exampleEvent (Some "Constructor"%string)) = str "Workflow Dispatch"
  /\ buttonUrl (exampleEvent (Some "Constructor"%string))
     = str "https://github.com/octo/demo/commit/abc123".
Proof.
  destruct (inherited_event_name (engine := asciiEngine)
              (exampleArgs (Some "Constructor"%string) "success" "build"))
    as (H1 & H2 & _); [reflexivity|].
  split; [exact H1 | exact H2].
Defined.

(** X13, at a pull request without a number. *)
Lemma pull_request_without_number_witness :
  buttonUrl (eventWidget (createCard (engine := asciiEngine) pullRequestWithoutNumber))
  = str "https://github.com/octo/demo/pull/undefined"
  /\ buttonUrl (statusWidget (createCard (engine := asciiEngine) pullRequestWithoutNumber))
     = str "https://github.com/octo/demo/pull/undefined/checks".
Proof.
  apply (pull_request_without_number (engine := asciiEngine)
           pullRequestWithoutNumber); reflexivity.
Defined.

(** X14, at the statuses "success" and "Failure" and at the empty one. *)
Lemma status_label_ascii_witness :
  statusNameOf (engine := asciiEngine) (js "success") = js "Success"
  /\ statusNameOf (engine := asciiEngine) (js "Failure") = js "Failure"
  /\ statusNameOf (engine := asciiEngine) [] = [].
Proof.
  split; [|split].
  - apply (status_label_ascii (engine := asciiEngine) (js "success")). reflexivity.
  - apply (status_label_ascii (engine := asciiEngine) (js "Failure")). reflexivity.
  - apply (status_label_ascii (engine := asciiEngine) []). reflexivity.
Defined.

(** X15, at the status "failure" and its upper case "FAILURE". *)
Lemma status_case_insensitive_witness :
  iconUrl (statusWidget (exampleCard (Some "push"%string) "FAILURE" "build"))
  = iconUrl (statusWidget (exampleCard (Some "push"%string) "failure" "build")).
Proof.
  apply (status_case_insensitive (engine := asciiEngine)
           (exampleArgs (Some "push"%string) "success" "build") (js "failure")).
  reflexivity.
Defined.

(** X16, at the event "pull_request" and its upper case. *)
Lemma event_case_insensitive_witness :
  exampleEvent (Some "PULL_REQUEST"%string)
  = exampleEvent (Some "pull_request"%string).
Proof.
  apply (event_case_insensitive (engine := asciiEngine)
           (exampleArgs None "success" "build") (js "pull_request")).
  reflexivity.
Defined.

(** X19, at an object that has a name of its own: that name is kept, the
    header too, and there is no other property. *)
Lemma createBody_keeps_properties_witness :
  assoc (js "name")
    (fieldsOf (envelopedCard (createBody (js "build") (VObject namedObject))))
  = Some (str "own").
Proof.
  apply (createBody_keeps_properties (js "build") namedObject (js "name")).
  repeat constructor; simpl; intuition discriminate.
Defined.
